(** * The KeptnWorkloadInstance controller

    A shallow embedding of [operator/controllers/keptnworkloadinstance_controller.go]:
    the reconcile loop of a KeptnWorkloadInstance, the creation of the
    pre-deployment check task with its bounded retry on name conflicts, the
    Kubernetes event it emits, and the object store all of them talk to.

    The controller is written against [client.Client]; here the client is a
    state monad over a [Cluster]: the objects the API server holds, and the
    script of the environment for this run (the faults the server raises, the
    identifiers [uuid.New] draws, the readings of the clock). *)

From Stdlib Require Import List String Ascii Bool ZArith Lia.
Import ListNotations.
Open Scope string_scope.
Open Scope list_scope.

Set Implicit Arguments.

(** ** Errors

    [k8s.io/apimachinery/pkg/api/errors] classifies the failure of a call by
    the reason of its status; [fmt.Errorf] with the verb [%+v] builds a new
    error that only prints its argument and no longer answers to [IsNotFound]. *)

Inductive StatusReason : Type :=
| StatusReasonNotFound
| StatusReasonAlreadyExists
| StatusReasonConflict
| StatusReasonForbidden
| StatusReasonServiceUnavailable
| StatusReasonTimeout
| StatusReasonCanceled.

Inductive error : Type :=
| StatusError (reason : StatusReason)
| Errorf (format : string) (arg : error).

Definition IsNotFound (err : option error) : bool :=
  match err with
  | Some (StatusError StatusReasonNotFound) => true
  | _ => false
  end.

Definition IsAlreadyExists (err : option error) : bool :=
  match err with
  | Some (StatusError StatusReasonAlreadyExists) => true
  | _ => false
  end.

(** ** Objects *)

Definition Time := Z.
Definition Annotations := list (string * string).

Record NamespacedName : Type := mkNamespacedName {
  nnNamespace : string;
  nnName : string
}.

Definition NamespacedName_eqb (a b : NamespacedName) : bool :=
  String.eqb (nnNamespace a) (nnNamespace b) && String.eqb (nnName a) (nnName b).

(** The phases are string types in the API package: [generateK8sEvent]
    converts one with [string(...)]. *)
Definition KeptnWorkloadInstancePhase := string.
Definition EventPhase := string.
Definition JobSpec := string.

Record CheckDefinition : Type := mkCheckDefinition {
  cdJobSpec : JobSpec
}.

Record KeptnWorkloadInstanceSpec : Type := mkKeptnWorkloadInstanceSpec {
  AppName : string;
  PreDeploymentCheck : CheckDefinition;
  PostDeploymentCheck : CheckDefinition
}.

Record KeptnWorkloadInstanceStatus : Type := mkKeptnWorkloadInstanceStatus {
  PreDeploymentPhase : KeptnWorkloadInstancePhase;
  PostDeploymentPhase : KeptnWorkloadInstancePhase;
  PreDeploymentTaskName : string;
  PostDeploymentTaskName : string
}.

Record KeptnWorkloadInstance : Type := mkKeptnWorkloadInstance {
  wiKind : string;
  wiName : string;
  wiNamespace : string;
  wiAnnotations : Annotations;
  wiSpec : KeptnWorkloadInstanceSpec;
  wiStatus : KeptnWorkloadInstanceStatus
}.

(** [klcv1alpha1.Event]: the check task. *)
Record EventSpec : Type := mkEventSpec {
  esService : string;
  esApplication : string;
  esJobSpec : JobSpec
}.

Record Event : Type := mkEvent {
  evName : string;
  evNamespace : string;
  evAnnotations : Annotations;
  evSpec : EventSpec;
  evPhase : EventPhase
}.

(** [corev1.Event]: the record the controller posts on a phase change. *)
Record ObjectReference : Type := mkObjectReference {
  orKind : string;
  orNamespace : string;
  orName : string
}.

Record CoreEvent : Type := mkCoreEvent {
  ceGenerateName : string;
  ceNamespace : string;
  ceResourceVersion : string;
  ceAnnotations : Annotations;
  ceInvolvedObject : ObjectReference;
  ceReason : string;
  ceMessage : string;
  ceSourceComponent : string;
  ceType : string;
  ceEventTime : Time;
  ceFirstTimestamp : Time;
  ceLastTimestamp : Time;
  ceAction : string;
  ceReportingController : string;
  ceReportingInstance : string
}.

(** The zero values [&klcv1alpha1.KeptnWorkloadInstance{}] and
    [&klcv1alpha1.Event{}] that a [Get] is handed to fill. *)
Definition zeroKeptnWorkloadInstance : KeptnWorkloadInstance :=
  mkKeptnWorkloadInstance "" "" "" []
    (mkKeptnWorkloadInstanceSpec "" (mkCheckDefinition "") (mkCheckDefinition ""))
    (mkKeptnWorkloadInstanceStatus "" "" "" "").

Definition zeroEvent : Event :=
  mkEvent "" "" [] (mkEventSpec "" "" "") "".

Definition wiKey (wi : KeptnWorkloadInstance) : NamespacedName :=
  mkNamespacedName (wiNamespace wi) (wiName wi).

Definition evKey (ev : Event) : NamespacedName :=
  mkNamespacedName (evNamespace ev) (evName ev).

(** The two assignments of [Reconcile] to the status of the instance it
    holds, and the one of [startPreDeploymentChecks] to the name of the task. *)
Definition setPreDeploymentTaskName (wi : KeptnWorkloadInstance) (n : string)
  : KeptnWorkloadInstance :=
  let s := wiStatus wi in
  mkKeptnWorkloadInstance (wiKind wi) (wiName wi) (wiNamespace wi)
    (wiAnnotations wi) (wiSpec wi)
    (mkKeptnWorkloadInstanceStatus (PreDeploymentPhase s) (PostDeploymentPhase s)
       n (PostDeploymentTaskName s)).

Definition setPreDeploymentPhase (wi : KeptnWorkloadInstance)
  (p : KeptnWorkloadInstancePhase) : KeptnWorkloadInstance :=
  let s := wiStatus wi in
  mkKeptnWorkloadInstance (wiKind wi) (wiName wi) (wiNamespace wi)
    (wiAnnotations wi) (wiSpec wi)
    (mkKeptnWorkloadInstanceStatus p (PostDeploymentPhase s)
       (PreDeploymentTaskName s) (PostDeploymentTaskName s)).

Definition setEventName (ev : Event) (n : string) : Event :=
  mkEvent n (evNamespace ev) (evAnnotations ev) (evSpec ev) (evPhase ev).

(** What [Status().Update] writes: the status of the object in hand onto the
    stored object, whose metadata and spec stay as stored. *)
Definition withStatus (stored : KeptnWorkloadInstance)
  (s : KeptnWorkloadInstanceStatus) : KeptnWorkloadInstance :=
  mkKeptnWorkloadInstance (wiKind stored) (wiName stored) (wiNamespace stored)
    (wiAnnotations stored) (wiSpec stored) s.

(** ** The declarations of the API package

    The controller uses three phase constants of the workload instance, one
    of the task, and three predicates, all declared in
    [operator/api/v1alpha1]. They are an interface here; the development
    holds for every implementation, under the hypotheses each theorem names. *)
Class V1alpha1 : Type := {
  WorkloadInstanceRunning : KeptnWorkloadInstancePhase;
  WorkloadInstanceSucceeded : KeptnWorkloadInstancePhase;
  WorkloadInstanceFailed : KeptnWorkloadInstancePhase;
  EventFailed : EventPhase;
  IsCompleted : KeptnWorkloadInstance -> bool;
  IsDeploymentCheckNotCreated : KeptnWorkloadInstance -> bool;
  EventIsCompleted : Event -> bool
}.

(** ** The cluster *)

Record Cluster : Type := mkCluster {
  workloadInstances : list KeptnWorkloadInstance;
  tasks : list Event;
  coreEvents : list CoreEvent;
  faults : list (option error);
  uuids : list string;
  clock : list Time
}.

(** A store of objects named by their metadata. An object is the first one
    of the list carrying its name; [Create] refuses a name that is taken. *)
Section Store.
Variable A : Type.
Variable key : A -> NamespacedName.

Fixpoint lookup (k : NamespacedName) (l : list A) : option A :=
  match l with
  | [] => None
  | o :: r => if NamespacedName_eqb (key o) k then Some o else lookup k r
  end.

Fixpoint replace (k : NamespacedName) (f : A -> A) (l : list A) : list A :=
  match l with
  | [] => []
  | o :: r => if NamespacedName_eqb (key o) k then f o :: r
              else o :: replace k f r
  end.

Fixpoint remove (k : NamespacedName) (l : list A) : list A :=
  match l with
  | [] => []
  | o :: r => if NamespacedName_eqb (key o) k then r else o :: remove k r
  end.
End Store.

(** ** The client monad *)

Definition M (A : Type) : Type := Cluster -> A * Cluster.

Definition ret {A : Type} (a : A) : M A := fun c => (a, c).

Definition bind {A B : Type} (m : M A) (k : A -> M B) : M B :=
  fun c => let (a, c') := m c in k a c'.

Declare Scope client_scope.
Delimit Scope client_scope with client.
Notation "x <- m ;; k" := (bind m (fun x => k))
  (at level 100, m at next level, right associativity) : client_scope.
Notation "' p <- m ;; k" := (bind m (fun x => let 'p := x in k))
  (at level 100, p pattern, m at next level, right associativity) : client_scope.
Open Scope client_scope.

Definition setWorkloadInstances (c : Cluster) (l : list KeptnWorkloadInstance) : Cluster :=
  mkCluster l (tasks c) (coreEvents c) (faults c) (uuids c) (clock c).
Definition setTasks (c : Cluster) (l : list Event) : Cluster :=
  mkCluster (workloadInstances c) l (coreEvents c) (faults c) (uuids c) (clock c).
Definition setCoreEvents (c : Cluster) (l : list CoreEvent) : Cluster :=
  mkCluster (workloadInstances c) (tasks c) l (faults c) (uuids c) (clock c).
Definition setFaults (c : Cluster) (l : list (option error)) : Cluster :=
  mkCluster (workloadInstances c) (tasks c) (coreEvents c) l (uuids c) (clock c).
Definition setUuids (c : Cluster) (l : list string) : Cluster :=
  mkCluster (workloadInstances c) (tasks c) (coreEvents c) (faults c) l (clock c).
Definition setClock (c : Cluster) (l : list Time) : Cluster :=
  mkCluster (workloadInstances c) (tasks c) (coreEvents c) (faults c) (uuids c) l.

(** Every call of the client first asks the environment whether the server
    fails it (unavailable, forbidden, cancelled, ...); a failed call leaves
    the objects as they were. Once the script is used up no call is failed. *)
Definition nextFault : M (option error) :=
  fun c => (hd None (faults c), setFaults c (tl (faults c))).

(** [uuid.New().String()] and [time.Now().UTC()]. *)
Definition uuidNew : M string :=
  fun c => (hd "" (uuids c), setUuids c (tl (uuids c))).

Definition timeNow : M Time :=
  fun c => (hd 0%Z (clock c), setClock c (tl (clock c))).

(** The fault the script holds for the [i]-th call from now. *)
Definition fault (i : nat) (c : Cluster) : option error := nth i (faults c) None.

Definition GetWorkloadInstance (k : NamespacedName)
  : M (KeptnWorkloadInstance * option error) :=
  f <- nextFault ;;
  match f with
  | Some e => ret (zeroKeptnWorkloadInstance, Some e)
  | None => fun c =>
      match lookup wiKey k (workloadInstances c) with
      | Some wi => ((wi, None), c)
      | None => ((zeroKeptnWorkloadInstance, Some (StatusError StatusReasonNotFound)), c)
      end
  end.

Definition GetEvent (k : NamespacedName) : M (Event * option error) :=
  f <- nextFault ;;
  match f with
  | Some e => ret (zeroEvent, Some e)
  | None => fun c =>
      match lookup evKey k (tasks c) with
      | Some ev => ((ev, None), c)
      | None => ((zeroEvent, Some (StatusError StatusReasonNotFound)), c)
      end
  end.

Definition CreateEvent (ev : Event) : M (option error) :=
  f <- nextFault ;;
  match f with
  | Some e => ret (Some e)
  | None => fun c =>
      match lookup evKey (evKey ev) (tasks c) with
      | Some _ => (Some (StatusError StatusReasonAlreadyExists), c)
      | None => (None, setTasks c (tasks c ++ [ev]))
      end
  end.

Definition DeleteEvent (ev : Event) : M (option error) :=
  f <- nextFault ;;
  match f with
  | Some e => ret (Some e)
  | None => fun c =>
      match lookup evKey (evKey ev) (tasks c) with
      | Some _ => (None, setTasks c (remove evKey (evKey ev) (tasks c)))
      | None => (Some (StatusError StatusReasonNotFound), c)
      end
  end.

(** The event is created under a [GenerateName]: the server picks the name,
    so the call meets no name that is taken. *)
Definition CreateCoreEvent (e : CoreEvent) : M (option error) :=
  f <- nextFault ;;
  match f with
  | Some e' => ret (Some e')
  | None => fun c => (None, setCoreEvents c (coreEvents c ++ [e]))
  end.

Definition StatusUpdate (wi : KeptnWorkloadInstance) : M (option error) :=
  f <- nextFault ;;
  match f with
  | Some e => ret (Some e)
  | None => fun c =>
      match lookup wiKey (wiKey wi) (workloadInstances c) with
      | Some _ =>
          (None, setWorkloadInstances c
                   (replace wiKey (wiKey wi) (fun o => withStatus o (wiStatus wi))
                      (workloadInstances c)))
      | None => (Some (StatusError StatusReasonNotFound), c)
      end
  end.

(** ** The controller *)

(** [ctrl.Result]; a [time.Duration] counts nanoseconds. *)
Record Result : Type := mkResult {
  Requeue : bool;
  RequeueAfter : Z
}.

Definition Second : Z := 1000000000.
Definition emptyResult : Result := mkResult false 0.
Definition requeueAfter5s : Result := mkResult true (5 * Second).

Section Controller.
Context {api : V1alpha1}.

(** [uid[:10]] *)
Definition generateSuffix : M string :=
  uid <- uuidNew ;;
  ret (substring 0 10 uid).

(** The body of [for i := 0; i < 5; i++] with [n] rounds left. A round that
    meets [AlreadyExists] renames the event and goes on; any other error
    leaves the function; a success breaks out. When no round is left the
    loop is simply over and the function returns the name it holds. *)
Fixpoint createLoop (n : nat) (workloadInstance : KeptnWorkloadInstance)
  (event : Event) : M (string * option error) :=
  match n with
  | O => ret (evName event, None)
  | S n' =>
      err <- CreateEvent event ;;
      match err with
      | Some e =>
          if IsAlreadyExists err then
            suffix <- generateSuffix ;;
            createLoop n' workloadInstance
              (setEventName event (wiName workloadInstance ++ "-" ++ suffix))
          else ret ("", Some e)
      | None => ret (evName event, None)
      end
  end.

Definition startPreDeploymentChecks (workloadInstance : KeptnWorkloadInstance)
  : M (string * option error) :=
  suffix <- generateSuffix ;;
  let event :=
    mkEvent (wiName workloadInstance ++ "-" ++ suffix)
      (wiNamespace workloadInstance)
      (wiAnnotations workloadInstance)
      (mkEventSpec (wiName workloadInstance)
         (AppName (wiSpec workloadInstance))
         (cdJobSpec (PreDeploymentCheck (wiSpec workloadInstance))))
      "" in
  createLoop 5 workloadInstance event.

(** The three timestamps are three calls of [time.Now], in the order of
    the fields of the literal. *)
Definition generateK8sEvent (workloadInstance : KeptnWorkloadInstance)
  (eventType : string) : M CoreEvent :=
  eventTime <- timeNow ;;
  firstTimestamp <- timeNow ;;
  lastTimestamp <- timeNow ;;
  ret (mkCoreEvent
         (wiName workloadInstance ++ "-" ++ eventType ++ "-")
         (wiNamespace workloadInstance)
         "v1alpha1"
         (wiAnnotations workloadInstance)
         (mkObjectReference (wiKind workloadInstance)
            (wiNamespace workloadInstance) (wiName workloadInstance))
         (PreDeploymentPhase (wiStatus workloadInstance))
         ("pre-deployment checks are " ++ eventType)
         (wiKind workloadInstance)
         "Normal"
         eventTime firstTimestamp lastTimestamp
         eventType
         "workloadInstance-controller"
         "workloadInstance-controller").

Definition getPreDeploymentChecksEvent (workloadInstance : KeptnWorkloadInstance)
  : M (option Event * option error) :=
  '(event, err) <-
     GetEvent (mkNamespacedName (wiNamespace workloadInstance)
                 (PreDeploymentTaskName (wiStatus workloadInstance))) ;;
  if IsNotFound err then ret (None, err)
  else ret (Some event, None).

(** The branch of [Reconcile] that starts the checks. *)
Definition reconcileStart (workloadInstance : KeptnWorkloadInstance)
  : M (Result * option error) :=
  '(preDeploymentCheckName, err) <- startPreDeploymentChecks workloadInstance ;;
  match err with
  | Some e => ret (emptyResult, Some e)
  | None =>
      let workloadInstance :=
        setPreDeploymentTaskName workloadInstance preDeploymentCheckName in
      let workloadInstance :=
        setPreDeploymentPhase workloadInstance WorkloadInstanceRunning in
      k8sEvent <- generateK8sEvent workloadInstance "started" ;;
      err <- CreateCoreEvent k8sEvent ;;
      match err with
      | Some e => ret (emptyResult, Some e)
      | None =>
          err <- StatusUpdate workloadInstance ;;
          match err with
          | Some e => ret (emptyResult, Some e)
          | None => ret (requeueAfter5s, None)
          end
      end
  end.

(** The branch of [Reconcile] that folds a completed task into the status. *)
Definition reconcileFinish (workloadInstance : KeptnWorkloadInstance)
  (preDeploymentChecksEvent : Event) : M (Result * option error) :=
  let workloadInstance :=
    if String.eqb (evPhase preDeploymentChecksEvent) EventFailed
    then setPreDeploymentPhase workloadInstance WorkloadInstanceFailed
    else setPreDeploymentPhase workloadInstance WorkloadInstanceSucceeded in
  err <- DeleteEvent preDeploymentChecksEvent ;;
  match err with
  | Some e => ret (emptyResult, Some e)
  | None =>
      err <- StatusUpdate workloadInstance ;;
      match err with
      | Some e => ret (emptyResult, Some e)
      | None =>
          k8sEvent <- generateK8sEvent workloadInstance "finished" ;;
          err <- CreateCoreEvent k8sEvent ;;
          match err with
          | Some e => ret (emptyResult, Some e)
          | None => ret (emptyResult, None)
          end
      end
  end.

Definition Reconcile (req : NamespacedName) : M (Result * option error) :=
  '(workloadInstance, err) <- GetWorkloadInstance req ;;
  if IsNotFound err then ret (emptyResult, None)
  else
    match err with
    | Some e =>
        ret (emptyResult,
             Some (Errorf "could not fetch KeptnWorkloadInstance: %+v" e))
    | None =>
        if IsCompleted workloadInstance then ret (emptyResult, None)
        else if IsDeploymentCheckNotCreated workloadInstance then
          reconcileStart workloadInstance
        else
          '(preDeploymentChecksEvent, err) <-
             getPreDeploymentChecksEvent workloadInstance ;;
          match err, preDeploymentChecksEvent with
          | Some e, _ => ret (emptyResult, Some e)
          | None, None =>
              (* a nil task under a nil error: [getPreDeploymentChecksEvent]
                 never returns it, see [getPreDeploymentChecksEvent_cases] *)
              ret (emptyResult, None)
          | None, Some preDeploymentChecksEvent =>
              if EventIsCompleted preDeploymentChecksEvent then
                reconcileFinish workloadInstance preDeploymentChecksEvent
              else ret (requeueAfter5s, None)
          end
    end.

(** A sequence of passes, one per request. *)
Fixpoint reconcileAll (reqs : list NamespacedName) (c : Cluster) : Cluster :=
  match reqs with
  | [] => c
  | req :: reqs' => reconcileAll reqs' (snd (Reconcile req c))
  end.
End Controller.

(** Modelled from the spec: the constants and predicates of
    [operator/api/v1alpha1], which is not part of the sources. The phases of
    an instance are NotStarted, Running, Succeeded and Failed; an instance is
    completed when both of its phases are terminal; its deployment check is
    not created while the pre-deployment phase is NotStarted; a task is
    completed when its phase is Succeeded or Failed. *)
Definition WorkloadInstanceNotStarted : KeptnWorkloadInstancePhase := "NotStarted".

Definition isTerminalString (p : string) : bool :=
  String.eqb p "Succeeded" || String.eqb p "Failed".

Definition specApi : V1alpha1 := {|
  WorkloadInstanceRunning := "Running";
  WorkloadInstanceSucceeded := "Succeeded";
  WorkloadInstanceFailed := "Failed";
  EventFailed := "Failed";
  IsCompleted := fun wi =>
    isTerminalString (PreDeploymentPhase (wiStatus wi))
    && isTerminalString (PostDeploymentPhase (wiStatus wi));
  IsDeploymentCheckNotCreated := fun wi =>
    String.eqb (PreDeploymentPhase (wiStatus wi)) WorkloadInstanceNotStarted;
  EventIsCompleted := fun ev => isTerminalString (evPhase ev)
|}.

(** * The relations of the development *)

(** The record [generateK8sEvent] returns when the clock holds the
    readings [clk]. *)
Definition k8sEventAt (wi : KeptnWorkloadInstance) (eventType : string)
  (clk : list Time) : CoreEvent :=
  fst (generateK8sEvent wi eventType (mkCluster [] [] [] [] [] clk)).

Section Relations1.
Context {api : V1alpha1}.

(** The check task [startPreDeploymentChecks] builds for an instance,
    under a given name. *)
Definition preDeploymentEvent (wi : KeptnWorkloadInstance) (name : string) : Event :=
  mkEvent name (wiNamespace wi) (wiAnnotations wi)
    (mkEventSpec (wiName wi) (AppName (wiSpec wi))
       (cdJobSpec (PreDeploymentCheck (wiSpec wi))))
    "".

(** The name of a task: the name of the instance, a dash, a suffix. *)
Definition taskName (wi : KeptnWorkloadInstance) (suffix : string) : string :=
  wiName wi ++ "-" ++ suffix.

(** What the retry loop can do to the cluster: it returns an error and
    creates nothing, or it creates the one task whose name it returns, or it
    runs out of rounds and returns a name under which it created nothing. *)
Inductive createOutcome (wi : KeptnWorkloadInstance) (ts : list Event)
  : string * option error -> list Event -> Prop :=
| createFailed e :
    createOutcome wi ts ("", Some e) ts
| createDone s :
    createOutcome wi ts (taskName wi s, None)
      (ts ++ [preDeploymentEvent wi (taskName wi s)])
| createExhausted s :
    createOutcome wi ts (taskName wi s, None) ts.

Definition terminalPhase (p : KeptnWorkloadInstancePhase) : Prop :=
  p = WorkloadInstanceSucceeded \/ p = WorkloadInstanceFailed.

(** What a pass may do to one stored instance: nothing; the two
    assignments of the branch that starts the checks; or the assignment of
    the branch that folds a completed task into the status. *)
Inductive passEffect (a : KeptnWorkloadInstance) : KeptnWorkloadInstance -> Prop :=
| effectNone : passEffect a a
| effectStarted s :
    IsCompleted a = false -> IsDeploymentCheckNotCreated a = true ->
    passEffect a
      (setPreDeploymentPhase (setPreDeploymentTaskName a (taskName a s))
         WorkloadInstanceRunning)
| effectFinished p :
    IsCompleted a = false -> IsDeploymentCheckNotCreated a = false ->
    terminalPhase p ->
    passEffect a (setPreDeploymentPhase a p).

(** What a pass may do to the tasks: nothing, create the pre-deployment
    task of an instance, or delete one task. *)
Inductive tasksEffect (c : Cluster) (ts : list Event) : list Event -> Prop :=
| tasksSame : tasksEffect c ts ts
| tasksCreated wi s :
    In wi (workloadInstances c) ->
    tasksEffect c ts (ts ++ [preDeploymentEvent wi (taskName wi s)])
| tasksDeleted k : tasksEffect c ts (remove evKey k ts).

(** The records a pass may post: none, or one, generated from the instance
    as the pass has just changed it. *)
Inductive auditEffect (c : Cluster) (es : list CoreEvent) : list CoreEvent -> Prop :=
| auditNone : auditEffect c es es
| auditPosted a b eventType :
    In a (workloadInstances c) -> passEffect a b ->
    (eventType = "started" /\
       PreDeploymentPhase (wiStatus b) = WorkloadInstanceRunning
     \/ eventType = "finished" /\
       terminalPhase (PreDeploymentPhase (wiStatus b))) ->
    auditEffect c es (es ++ [k8sEventAt b eventType (clock c)]).

Definition passEffects (c c' : Cluster) : Prop :=
  Forall2 passEffect (workloadInstances c) (workloadInstances c')
  /\ tasksEffect c (tasks c) (tasks c')
  /\ auditEffect c (coreEvents c) (coreEvents c').

End Relations1.

(** ** Sample clusters *)

Definition checkout (pre post taskName : string) : KeptnWorkloadInstance :=
  mkKeptnWorkloadInstance "KeptnWorkloadInstance" "checkout" "ns" [("app", "shop")]
    (mkKeptnWorkloadInstanceSpec "shop"
       (mkCheckDefinition "image-scan") (mkCheckDefinition "smoke-test"))
    (mkKeptnWorkloadInstanceStatus pre post taskName "").

Definition checkoutReq : NamespacedName := mkNamespacedName "ns" "checkout".

Definition checkoutTask (name phase : string) : Event :=
  mkEvent name "ns" [("app", "shop")] (mkEventSpec "checkout" "shop" "image-scan") phase.

(** The instance is running its check and the task has succeeded. *)
Definition clusterTaskSucceeded (fs : list (option error)) : Cluster :=
  mkCluster [checkout "Running" "NotStarted" "checkout-0123456789"]
    [checkoutTask "checkout-0123456789" "Succeeded"] [] fs [] [100; 101; 102]%Z.

(** The instance is running its check and the task is gone. *)
Definition clusterTaskGone : Cluster :=
  mkCluster [checkout "Running" "NotStarted" "checkout-0123456789"]
    [] [] [] [] [100; 101; 102]%Z.

(** The pre-deployment check of the instance has failed. *)
Definition clusterPreFailed : Cluster :=
  mkCluster [checkout "Failed" "NotStarted" "checkout-0123456789"]
    [] [] [] [] [100; 101; 102]%Z.

(** A fresh instance, and every name the next five identifiers give is taken. *)
Definition clusterNamesTaken : Cluster :=
  mkCluster [checkout "NotStarted" "NotStarted" ""]
    [checkoutTask "checkout-aaaaaaaa-a" "Running";
     checkoutTask "checkout-bbbbbbbb-b" "Running";
     checkoutTask "checkout-cccccccc-c" "Running";
     checkoutTask "checkout-dddddddd-d" "Running";
     checkoutTask "checkout-eeeeeeee-e" "Running"]
    [] []
    ["aaaaaaaa-aaaa-4aaa-8aaa-aaaaaaaaaaaa"; "bbbbbbbb-bbbb-4bbb-8bbb-bbbbbbbbbbbb";
     "cccccccc-cccc-4ccc-8ccc-cccccccccccc"; "dddddddd-dddd-4ddd-8ddd-dddddddddddd";
     "eeeeeeee-eeee-4eee-8eee-eeeeeeeeeeee"; "ffffffff-ffff-4fff-8fff-ffffffffffff"]
    [100; 101; 102]%Z.

(** ** The relations of the claims *)

Section Relations2.
Context {api : V1alpha1}.

(** Two instances that differ at most in [Status.PreDeploymentPhase] and
    [Status.PreDeploymentTaskName]. *)
Definition sameButPreDeployment (a b : KeptnWorkloadInstance) : Prop :=
  wiKind b = wiKind a /\ wiName b = wiName a /\ wiNamespace b = wiNamespace a
  /\ wiAnnotations b = wiAnnotations a /\ wiSpec b = wiSpec a
  /\ PostDeploymentPhase (wiStatus b) = PostDeploymentPhase (wiStatus a)
  /\ PostDeploymentTaskName (wiStatus b) = PostDeploymentTaskName (wiStatus a).

(** What a pass does to the pre-deployment status of one instance. *)
Definition taskNameStep (a b : KeptnWorkloadInstance) : Prop :=
  wiStatus b = wiStatus a
  \/ (PreDeploymentPhase (wiStatus b) = WorkloadInstanceRunning
      /\ PreDeploymentTaskName (wiStatus b) <> "")
  \/ (terminalPhase (PreDeploymentPhase (wiStatus b))
      /\ PreDeploymentTaskName (wiStatus b) = PreDeploymentTaskName (wiStatus a)).

(** Terminal phases stay terminal from one instance to the other. *)
Definition phasesAbsorbed (a b : KeptnWorkloadInstance) : Prop :=
  (terminalPhase (PreDeploymentPhase (wiStatus a)) ->
   terminalPhase (PreDeploymentPhase (wiStatus b)))
  /\ (terminalPhase (PostDeploymentPhase (wiStatus a)) ->
      terminalPhase (PostDeploymentPhase (wiStatus b))).

Definition postDeploymentKept (a b : KeptnWorkloadInstance) : Prop :=
  PostDeploymentPhase (wiStatus b) = PostDeploymentPhase (wiStatus a)
  /\ PostDeploymentTaskName (wiStatus b) = PostDeploymentTaskName (wiStatus a).

End Relations2.

(** C5: the invariant of the spec, that the task name is set exactly when the
    phase is Running. *)
Definition taskNameInvariant `{V1alpha1} (c : Cluster) : Prop :=
  Forall (fun wi => PreDeploymentTaskName (wiStatus wi) <> ""
                    <-> PreDeploymentPhase (wiStatus wi) = WorkloadInstanceRunning)
    (workloadInstances c).

Section Relations3.
Context {api : V1alpha1}.

(** The name under which [Reconcile] looks for the task of an instance. *)
Definition taskRef (wi : KeptnWorkloadInstance) : NamespacedName :=
  mkNamespacedName (wiNamespace wi) (PreDeploymentTaskName (wiStatus wi)).

(** The phase the branch that folds a task into the status assigns. *)
Definition foldedPhase (ev : Event) : KeptnWorkloadInstancePhase :=
  if String.eqb (evPhase ev) EventFailed
  then WorkloadInstanceFailed else WorkloadInstanceSucceeded.

End Relations3.

(** ** The attempts of the retry loop *)

(** The name the loop holds at its [i]-th round, when it enters with the
    suffix [s] and [uuid.New] is about to yield [us]. *)
Definition attemptName (wi : KeptnWorkloadInstance) (s : string) (us : list string)
  (i : nat) : string :=
  match i with
  | O => taskName wi s
  | S j => taskName wi (substring 0 10 (nth j us ""))
  end.

(** The [i]-th [Create] from now answers [AlreadyExists]: the server says so,
    or the name of the round is taken. *)
Definition conflictAt (wi : KeptnWorkloadInstance) (s : string) (c : Cluster)
  (i : nat) : Prop :=
  fault i c = Some (StatusError StatusReasonAlreadyExists)
  \/ (fault i c = None
      /\ lookup evKey (mkNamespacedName (wiNamespace wi) (attemptName wi s (uuids c) i))
           (tasks c) <> None).

(** The cluster after [k] calls that changed no object and [k] identifiers. *)
Definition afterAttempts (k : nat) (c : Cluster) : Cluster :=
  setUuids (setFaults c (skipn k (faults c))) (skipn k (uuids c)).

(** The suffix [startPreDeploymentChecks] gives its [i]-th attempt, and the
    name of that attempt. *)
Definition suffixAt (c : Cluster) (i : nat) : string :=
  substring 0 10 (nth i (uuids c) "").

Definition nameAt (wi : KeptnWorkloadInstance) (c : Cluster) (i : nat) : NamespacedName :=
  mkNamespacedName (wiNamespace wi) (taskName wi (suffixAt c i)).

(** The [i]-th attempt of [startPreDeploymentChecks] meets [AlreadyExists]. *)
Definition attemptConflicts (wi : KeptnWorkloadInstance) (c : Cluster) (i : nat) : Prop :=
  fault i c = Some (StatusError StatusReasonAlreadyExists)
  \/ (fault i c = None /\ lookup evKey (nameAt wi c i) (tasks c) <> None).

(** ** More sample clusters *)

(** A fresh instance; the names the first four identifiers give are taken. *)
Definition clusterFourTaken : Cluster :=
  setTasks clusterNamesTaken (firstn 4 (tasks clusterNamesTaken)).

(** A fresh instance, and a server that forbids the next call. *)
Definition clusterForbidden : Cluster :=
  setFaults clusterFourTaken [Some (StatusError StatusReasonForbidden)].

(** The cluster once the read of the instance, the first call of a pass,
    has been answered. *)
Definition afterFetch (c : Cluster) : Cluster := setFaults c (tl (faults c)).

Section Relations4.
Context {api : V1alpha1}.

(** The instance as the branch that starts the checks persists it. *)
Definition startedInstance (wi : KeptnWorkloadInstance) (name : string)
  : KeptnWorkloadInstance :=
  setPreDeploymentPhase (setPreDeploymentTaskName wi name) WorkloadInstanceRunning.
End Relations4.

(** ** The shape of a pass *)

(** The results [Reconcile] can return: a nil error with no requeue or a
    requeue in five seconds, or an error with the empty result. *)
Definition resultShape (r : Result * option error) : Prop :=
  (snd r = None /\ (fst r = emptyResult \/ fst r = requeueAfter5s))
  \/ (exists e, r = (emptyResult, Some e)).

(** The stored instances after a pass for [req]: as they were, or with the
    first instance of that name rewritten. *)
Definition instancesShape (req : NamespacedName)
  (l l' : list KeptnWorkloadInstance) : Prop :=
  l' = l \/ exists f, l' = replace wiKey req f l.

(** The calls of a pass: [lo] to [hi] answers of the script are used up. *)
Definition callsBetween (lo hi : nat) (c c' : Cluster) : Prop :=
  exists k, lo <= k <= hi /\ faults c' = skipn k (faults c).

Definition passShape (req : NamespacedName) (hi : nat) (c0 c : Cluster)
  (r : (Result * option error) * Cluster) : Prop :=
  resultShape (fst r)
  /\ instancesShape req (workloadInstances c0) (workloadInstances (snd r))
  /\ callsBetween 1 hi c (snd r).

(** A fresh instance and an empty store of tasks. *)
Definition clusterFresh (fs : list (option error)) : Cluster :=
  setFaults (setTasks clusterNamesTaken []) fs.

(** An instance whose two phases are terminal. *)
Definition clusterCompleted : Cluster :=
  mkCluster [checkout "Succeeded" "Failed" "checkout-0123456789"]
    [] [] [] [] [100; 101; 102]%Z.


Section Relations5.
Context {api : V1alpha1}.

(** The record of a pass for [req] that found the instance [a] stored: none,
    or the record of the start for the instance with its new task name and
    the phase Running, or the record of the end for the instance with its
    terminal phase, which is then the instance the store holds. *)
Definition recordPosted (req : NamespacedName) (c c' : Cluster) : Prop :=
  coreEvents c' = coreEvents c
  \/ exists a b eventType,
       lookup wiKey req (workloadInstances c) = Some a
       /\ (eventType = "started"
           /\ (exists s, b = startedInstance a (taskName a s))
           \/ eventType = "finished"
           /\ (exists p, terminalPhase p /\ b = setPreDeploymentPhase a p)
           /\ lookup wiKey req (workloadInstances c') = Some b)
       /\ (workloadInstances c' = workloadInstances c
           \/ lookup wiKey req (workloadInstances c') = Some b)
       /\ coreEvents c' = coreEvents c ++ [fst (generateK8sEvent b eventType c)].

End Relations5.

(** * Properties *)

(** ** Names and the store *)

Lemma NamespacedName_eqb_eq (a b : NamespacedName) :
  NamespacedName_eqb a b = true <-> a = b.
Proof.
  destruct a as [an am], b as [bn bm]; unfold NamespacedName_eqb; simpl.
  rewrite andb_true_iff, !String.eqb_eq. split.
  - intros [-> ->]; reflexivity.
  - intros H; injection H; auto.
Qed.

Lemma NamespacedName_eqb_refl (a : NamespacedName) : NamespacedName_eqb a a = true.
Proof. apply NamespacedName_eqb_eq; reflexivity. Qed.

Section StoreFacts.
Variable A : Type.
Variable key : A -> NamespacedName.

Lemma lookup_key k l (o : A) : lookup key k l = Some o -> key o = k.
Proof.
  induction l as [|x r IH]; simpl; [discriminate|].
  destruct (NamespacedName_eqb (key x) k) eqn:E; [|exact IH].
  intros H; injection H as <-. now apply NamespacedName_eqb_eq.
Qed.

Lemma lookup_In k l (o : A) : lookup key k l = Some o -> In o l.
Proof.
  induction l as [|x r IH]; simpl; [discriminate|].
  destruct (NamespacedName_eqb (key x) k); [|auto].
  intros H; injection H as <-; auto.
Qed.

(** Replacing the object of a name touches that object alone. *)
Lemma replace_Forall2 (R : A -> A -> Prop) k f l o :
  (forall x, R x x) ->
  lookup key k l = Some o -> R o (f o) ->
  Forall2 R l (replace key k f l).
Proof.
  intros Hrefl. induction l as [|x r IH]; simpl; [discriminate|].
  destruct (NamespacedName_eqb (key x) k).
  - intros H Ho; injection H as <-. constructor; [exact Ho|].
    clear IH. induction r; constructor; auto.
  - intros H Ho. constructor; auto.
Qed.

Lemma Forall2_refl (R : A -> A -> Prop) l :
  (forall x, R x x) -> Forall2 R l l.
Proof. intros H; induction l; constructor; auto. Qed.

Lemma Forall2_trans (R S T : A -> A -> Prop) l1 l2 l3 :
  (forall x y z, R x y -> S y z -> T x z) ->
  Forall2 R l1 l2 -> Forall2 S l2 l3 -> Forall2 T l1 l3.
Proof.
  intros H H12; revert l3.
  induction H12; intros l3 H23; inversion H23; subst; constructor; eauto.
Qed.

End StoreFacts.

Lemma append_dash_nonempty (a b : string) : (a ++ "-" ++ b)%string <> "".
Proof. destruct a; discriminate. Qed.

Lemma tl_skipn {A} (n : nat) (l : list A) : tl (skipn n l) = skipn (S n) l.
Proof.
  revert l; induction n as [|n IH]; intros l.
  - destruct l; reflexivity.
  - destruct l as [|x r]; [reflexivity|].
    change (tl (skipn n r) = skipn (S n) r). apply IH.
Qed.

Lemma hd_skipn {A} (d : A) (n : nat) (l : list A) : hd d (skipn n l) = nth n l d.
Proof.
  revert l; induction n as [|n IH]; intros [|x r]; try reflexivity.
  simpl. apply IH.
Qed.

(** ** What each call leaves alone *)

Ltac unfold_client :=
  cbv beta iota zeta delta
    [bind ret GetWorkloadInstance GetEvent CreateEvent DeleteEvent
     CreateCoreEvent StatusUpdate nextFault uuidNew timeNow].

Ltac break_match :=
  match goal with
  | |- context [match ?x with _ => _ end] => destruct x eqn:?
  end.

(** The result of each call of the client, by the fault the script holds for
    it and the objects of the cluster. *)
Lemma run_GetWorkloadInstance k c :
  GetWorkloadInstance k c =
  match hd None (faults c) with
  | Some e => ((zeroKeptnWorkloadInstance, Some e), setFaults c (tl (faults c)))
  | None =>
      match lookup wiKey k (workloadInstances c) with
      | Some wi => ((wi, None), setFaults c (tl (faults c)))
      | None => ((zeroKeptnWorkloadInstance, Some (StatusError StatusReasonNotFound)),
                 setFaults c (tl (faults c)))
      end
  end.
Proof. unfold_client. destruct (hd None (faults c)); reflexivity. Qed.

Lemma run_GetEvent k c :
  GetEvent k c =
  match hd None (faults c) with
  | Some e => ((zeroEvent, Some e), setFaults c (tl (faults c)))
  | None =>
      match lookup evKey k (tasks c) with
      | Some ev => ((ev, None), setFaults c (tl (faults c)))
      | None => ((zeroEvent, Some (StatusError StatusReasonNotFound)),
                 setFaults c (tl (faults c)))
      end
  end.
Proof. unfold_client. destruct (hd None (faults c)); reflexivity. Qed.

Lemma run_CreateEvent ev c :
  CreateEvent ev c =
  match hd None (faults c) with
  | Some e => (Some e, setFaults c (tl (faults c)))
  | None =>
      match lookup evKey (evKey ev) (tasks c) with
      | Some _ => (Some (StatusError StatusReasonAlreadyExists),
                   setFaults c (tl (faults c)))
      | None => (None, setTasks (setFaults c (tl (faults c))) (tasks c ++ [ev]))
      end
  end.
Proof. unfold_client. destruct (hd None (faults c)); reflexivity. Qed.

Lemma run_DeleteEvent ev c :
  DeleteEvent ev c =
  match hd None (faults c) with
  | Some e => (Some e, setFaults c (tl (faults c)))
  | None =>
      match lookup evKey (evKey ev) (tasks c) with
      | Some _ => (None, setTasks (setFaults c (tl (faults c)))
                           (remove evKey (evKey ev) (tasks c)))
      | None => (Some (StatusError StatusReasonNotFound),
                 setFaults c (tl (faults c)))
      end
  end.
Proof. unfold_client. destruct (hd None (faults c)); reflexivity. Qed.

Lemma run_CreateCoreEvent e c :
  CreateCoreEvent e c =
  match hd None (faults c) with
  | Some e' => (Some e', setFaults c (tl (faults c)))
  | None => (None, setCoreEvents (setFaults c (tl (faults c))) (coreEvents c ++ [e]))
  end.
Proof. unfold_client. destruct (hd None (faults c)); reflexivity. Qed.

Lemma run_StatusUpdate wi c :
  StatusUpdate wi c =
  match hd None (faults c) with
  | Some e => (Some e, setFaults c (tl (faults c)))
  | None =>
      match lookup wiKey (wiKey wi) (workloadInstances c) with
      | Some _ =>
          (None, setWorkloadInstances (setFaults c (tl (faults c)))
                   (replace wiKey (wiKey wi) (fun o => withStatus o (wiStatus wi))
                      (workloadInstances c)))
      | None => (Some (StatusError StatusReasonNotFound), setFaults c (tl (faults c)))
      end
  end.
Proof. unfold_client. destruct (hd None (faults c)); reflexivity. Qed.

Ltac cluster_simpl :=
  cbn [fst snd faults workloadInstances tasks coreEvents clock uuids
       setClock setFaults setTasks setCoreEvents setWorkloadInstances setUuids].

Lemma run_generateK8sEvent wi eventType c :
  generateK8sEvent wi eventType c =
  (k8sEventAt wi eventType (clock c), setClock c (tl (tl (tl (clock c))))).
Proof. reflexivity. Qed.

Ltac run_step :=
  repeat progress
    (cbv beta iota delta [bind ret];
     rewrite ?run_generateK8sEvent, ?run_CreateCoreEvent, ?run_StatusUpdate,
       ?run_DeleteEvent, ?run_GetEvent, ?run_GetWorkloadInstance;
     cluster_simpl).

Section ControllerFacts.
Context {api : V1alpha1}.

Lemma createLoop_outcome n wi s c :
  let r := createLoop n wi (preDeploymentEvent wi (taskName wi s)) c in
  createOutcome wi (tasks c) (fst r) (tasks (snd r))
  /\ workloadInstances (snd r) = workloadInstances c
  /\ coreEvents (snd r) = coreEvents c
  /\ clock (snd r) = clock c.
Proof.
  revert s c; induction n as [|n IH]; intros s c; simpl.
  - split; [|auto]. apply createExhausted.
  - unfold generateSuffix; unfold_client; simpl.
    destruct (hd None (faults c)) as [e|] eqn:Hf.
    + destruct (IsAlreadyExists (Some e)) eqn:Hae.
      * exact (IH (substring 0 10 (hd "" (uuids c)))
                  (setUuids (setFaults c (tl (faults c))) (tl (uuids c)))).
      * simpl. split; [|auto]. apply createFailed.
    + match goal with
      | |- context [lookup evKey ?k ?l] => destruct (lookup evKey k l) eqn:Hl
      end; simpl.
      * exact (IH (substring 0 10 (hd "" (uuids c)))
                  (setUuids (setFaults c (tl (faults c))) (tl (uuids c)))).
      * split; [|auto]. apply createDone.
Qed.

Lemma startPreDeploymentChecks_outcome wi c :
  let r := startPreDeploymentChecks wi c in
  createOutcome wi (tasks c) (fst r) (tasks (snd r))
  /\ workloadInstances (snd r) = workloadInstances c
  /\ coreEvents (snd r) = coreEvents c
  /\ clock (snd r) = clock c.
Proof.
  unfold startPreDeploymentChecks, generateSuffix; unfold_client; simpl.
  exact (createLoop_outcome 5 wi (substring 0 10 (hd "" (uuids c)))
           (setUuids c (tl (uuids c)))).
Qed.

(** *** What a pass does to the objects *)

Lemma withStatus_self wi : withStatus wi (wiStatus wi) = wi.
Proof. destruct wi; reflexivity. Qed.

Lemma withStatus_setPhase wi p :
  withStatus wi (wiStatus (setPreDeploymentPhase wi p)) = setPreDeploymentPhase wi p.
Proof. reflexivity. Qed.

Lemma withStatus_started wi n p :
  withStatus wi (wiStatus (setPreDeploymentPhase (setPreDeploymentTaskName wi n) p))
  = setPreDeploymentPhase (setPreDeploymentTaskName wi n) p.
Proof. reflexivity. Qed.

Lemma passEffects_idle c c' :
  workloadInstances c' = workloadInstances c ->
  tasks c' = tasks c -> coreEvents c' = coreEvents c ->
  passEffects c c'.
Proof.
  intros H1 H2 H3; unfold passEffects; rewrite H1, H2, H3. repeat split.
  - apply Forall2_refl; constructor.
  - constructor.
  - constructor.
Qed.

Lemma wiKey_setPreDeploymentPhase wi p : wiKey (setPreDeploymentPhase wi p) = wiKey wi.
Proof. reflexivity. Qed.

Lemma wiKey_setPreDeploymentTaskName wi n :
  wiKey (setPreDeploymentTaskName wi n) = wiKey wi.
Proof. reflexivity. Qed.

(** Posting the record of a change and persisting it, in either order, is
    a change of the kind [passEffects] allows. *)
Lemma persist_effects req a b eventType c c1 :
  lookup wiKey req (workloadInstances c) = Some a ->
  passEffect a b -> wiKey b = wiKey a -> withStatus a (wiStatus b) = b ->
  (eventType = "started" /\
     PreDeploymentPhase (wiStatus b) = WorkloadInstanceRunning
   \/ eventType = "finished" /\
     terminalPhase (PreDeploymentPhase (wiStatus b))) ->
  workloadInstances c1 = workloadInstances c ->
  tasksEffect c (tasks c) (tasks c1) ->
  coreEvents c1 = coreEvents c -> clock c1 = clock c ->
  passEffects c
    (snd ((k8sEvent <- generateK8sEvent b eventType ;;
           err <- CreateCoreEvent k8sEvent ;;
           match err with
           | Some e => ret (emptyResult, Some e)
           | None =>
               err <- StatusUpdate b ;;
               match err with
               | Some e => ret (emptyResult, Some e)
               | None => ret (requeueAfter5s, None)
               end
           end) c1))
  /\ passEffects c
    (snd ((err <- StatusUpdate b ;;
           match err with
           | Some e => ret (emptyResult, Some e)
           | None =>
               k8sEvent <- generateK8sEvent b eventType ;;
               err <- CreateCoreEvent k8sEvent ;;
               match err with
               | Some e => ret (emptyResult, Some e)
               | None => ret (emptyResult, None)
               end
           end) c1)).
Proof.
  intros Hl Hab Hkey Hws Hty Hw Ht He Hk.
  assert (Hreq : wiKey a = req) by (eapply lookup_key; eassumption).
  assert (Hin : In a (workloadInstances c)) by (eapply lookup_In; eassumption).
  assert (Hrep : Forall2 passEffect (workloadInstances c)
                   (replace wiKey (wiKey b) (fun o => withStatus o (wiStatus b))
                      (workloadInstances c))).
  { rewrite Hkey, Hreq. eapply replace_Forall2; [constructor|eassumption|].
    rewrite Hws. exact Hab. }
  assert (Hpost : auditEffect c (coreEvents c)
                    (coreEvents c ++ [k8sEventAt b eventType (clock c)])).
  { eapply auditPosted; eassumption. }
  unfold passEffects. split.
  - run_step. rewrite Hk.
    destruct (hd None (faults c1)) as [e|]; run_step.
    + rewrite Hw, He. repeat split; auto using Forall2_refl, effectNone, auditNone.
    + rewrite Hw, He, Hkey, Hreq, Hl.
      destruct (hd None (tl (faults c1))) as [e|]; run_step.
      * rewrite Hw. repeat split; auto using Forall2_refl, effectNone.
      * rewrite <- Hreq, <- Hkey. repeat split; auto.
  - run_step. rewrite Hw, Hkey, Hreq, Hl.
    destruct (hd None (faults c1)) as [e|]; run_step.
    + rewrite Hw, He. repeat split; auto using Forall2_refl, effectNone, auditNone.
    + rewrite <- Hreq, <- Hkey, Hk.
      destruct (hd None (tl (faults c1))) as [e|]; run_step.
      * rewrite He. repeat split; auto using auditNone.
      * rewrite He. repeat split; auto.
Qed.

Lemma reconcileStart_effects req wi c c0 :
  lookup wiKey req (workloadInstances c) = Some wi ->
  IsCompleted wi = false -> IsDeploymentCheckNotCreated wi = true ->
  workloadInstances c0 = workloadInstances c ->
  tasks c0 = tasks c -> coreEvents c0 = coreEvents c -> clock c0 = clock c ->
  passEffects c (snd (reconcileStart wi c0)).
Proof.
  intros Hl Hc Hn Hw Ht He Hk. unfold reconcileStart, bind at 1.
  destruct (startPreDeploymentChecks_outcome wi c0) as (Ho & Hw1 & He1 & Hk1).
  destruct (startPreDeploymentChecks wi c0) as [[n err] c1]. simpl in *.
  rewrite Hw in Hw1. rewrite He in He1. rewrite Hk in Hk1. rewrite Ht in Ho.
  assert (Htasks : tasksEffect c (tasks c) (tasks c1)).
  { inversion Ho; subst; constructor. eapply lookup_In; eassumption. }
  inversion Ho as [e Hr Hts | s Hr Hts | s Hr Hts]; subst; clear Ho.
  - simpl. apply passEffects_idle; congruence.
  - eapply persist_effects; eauto using effectStarted.
  - eapply persist_effects; eauto using effectStarted.
Qed.

Lemma reconcileFinish_effects req wi ev c c0 :
  lookup wiKey req (workloadInstances c) = Some wi ->
  IsCompleted wi = false -> IsDeploymentCheckNotCreated wi = false ->
  workloadInstances c0 = workloadInstances c ->
  tasks c0 = tasks c -> coreEvents c0 = coreEvents c -> clock c0 = clock c ->
  passEffects c (snd (reconcileFinish wi ev c0)).
Proof.
  intros Hl Hc Hn Hw Ht He Hk. unfold reconcileFinish.
  set (p := if String.eqb (evPhase ev) EventFailed
            then WorkloadInstanceFailed else WorkloadInstanceSucceeded).
  assert (Hp : terminalPhase p)
    by (unfold p, terminalPhase; destruct (String.eqb _ _); auto).
  replace (if String.eqb (evPhase ev) EventFailed
           then setPreDeploymentPhase wi WorkloadInstanceFailed
           else setPreDeploymentPhase wi WorkloadInstanceSucceeded)
    with (setPreDeploymentPhase wi p)
    by (unfold p; destruct (String.eqb _ _); reflexivity).
  clearbody p.
  unfold bind at 1. rewrite run_DeleteEvent.
  destruct (hd None (faults c0)) as [e|].
  - apply passEffects_idle; assumption.
  - destruct (lookup evKey (evKey ev) (tasks c0)).
    + eapply persist_effects; cluster_simpl; eauto using effectFinished.
      rewrite Ht. constructor.
    + apply passEffects_idle; assumption.
Qed.

(** [getPreDeploymentChecksEvent] returns a task or an error, never both
    and never neither, and changes no object. *)
Lemma getPreDeploymentChecksEvent_cases wi c :
  let r := getPreDeploymentChecksEvent wi c in
  ((exists ev, fst r = (Some ev, None)) \/ (exists e, fst r = (None, Some e)))
  /\ workloadInstances (snd r) = workloadInstances c
  /\ tasks (snd r) = tasks c
  /\ coreEvents (snd r) = coreEvents c
  /\ clock (snd r) = clock c.
Proof.
  unfold getPreDeploymentChecksEvent. cbv beta iota zeta delta [bind ret].
  rewrite run_GetEvent.
  destruct (hd None (faults c)) as [e|].
  - cbv beta iota. destruct (IsNotFound (Some e)); cluster_simpl;
      (split; [eauto|auto]).
  - match goal with
    | |- context [lookup evKey ?k ?l] => destruct (lookup evKey k l)
    end; cbv beta iota; cbn [IsNotFound]; cluster_simpl;
      (split; [eauto|auto]).
Qed.

(** Every pass is one of the changes [passEffects] lists. *)
Lemma Reconcile_effects req c : passEffects c (snd (Reconcile req c)).
Proof.
  unfold Reconcile. unfold bind at 1. rewrite run_GetWorkloadInstance.
  destruct (hd None (faults c)) as [e|].
  - cbv beta iota. destruct (IsNotFound (Some e)); now apply passEffects_idle.
  - destruct (lookup wiKey req (workloadInstances c)) as [wi|] eqn:Hl;
      cbv beta iota; cbn [IsNotFound]; [|now apply passEffects_idle].
    destruct (IsCompleted wi) eqn:Hc; [now apply passEffects_idle|].
    destruct (IsDeploymentCheckNotCreated wi) eqn:Hn.
    + eapply reconcileStart_effects; eauto.
    + unfold bind at 1.
      destruct (getPreDeploymentChecksEvent_cases wi (setFaults c (tl (faults c))))
        as (Hr & Hw & Ht & He & Hk).
      destruct (getPreDeploymentChecksEvent wi (setFaults c (tl (faults c))))
        as [[ev err] c1].
      cbn [fst snd] in *. cluster_simpl.
      destruct Hr as [[ev' Hr]|[e Hr]]; injection Hr as -> ->.
      * destruct (EventIsCompleted ev').
        -- eapply reconcileFinish_effects; eauto.
        -- now apply passEffects_idle.
      * now apply passEffects_idle.
Qed.
End ControllerFacts.

(** * The claims *)

Section Claims.
Context {api : V1alpha1}.

Lemma passEffect_frame a b : passEffect a b -> sameButPreDeployment a b.
Proof. intros []; repeat split. Qed.

Lemma Forall2_impl {A} (R S : A -> A -> Prop) l l' :
  (forall x y, R x y -> S x y) -> Forall2 R l l' -> Forall2 S l l'.
Proof. intros H; induction 1; constructor; auto. Qed.

(** C10. A pass leaves every stored instance in place, with its kind, name,
    namespace, annotations, spec, post-deployment phase and post-deployment
    task name as they were: nothing but the pre-deployment phase and the
    pre-deployment task name of the status can differ, and no instance is
    removed or added. *)
Theorem Reconcile_frame (req : NamespacedName) (c : Cluster) :
  Forall2 sameButPreDeployment
    (workloadInstances c) (workloadInstances (snd (Reconcile req c))).
Proof.
  destruct (Reconcile_effects req c) as (H & _).
  eapply Forall2_impl; [|exact H]. exact passEffect_frame.
Qed.

(** C5, as amended. A pass leaves the status of an instance as it was, or
    sets the phase to Running together with a task name that is not empty,
    or sets the phase to Succeeded or Failed and leaves the task name as it
    was. *)
Theorem Reconcile_task_name (req : NamespacedName) (c : Cluster) :
  Forall2 taskNameStep
    (workloadInstances c) (workloadInstances (snd (Reconcile req c))).
Proof.
  destruct (Reconcile_effects req c) as (H & _).
  eapply Forall2_impl; [|exact H].
  intros a b [| s Hc Hn | p Hc Hn Hp]; unfold taskNameStep; cbn.
  - left; reflexivity.
  - right; left; split; [reflexivity|]. apply append_dash_nonempty.
  - right; right; split; [exact Hp|reflexivity].
Qed.

(** C6. Whatever the sequence of passes, an instance whose pre-deployment
    phase is Succeeded or Failed keeps a phase that is Succeeded or Failed,
    and so does its post-deployment phase; provided the predicates of the
    API package never call for the checks of an instance whose phase is
    terminal to be started. *)
Theorem terminal_phases_absorbing
  (Hstart : forall wi, terminalPhase (PreDeploymentPhase (wiStatus wi)) ->
            IsCompleted wi = true \/ IsDeploymentCheckNotCreated wi = false)
  (reqs : list NamespacedName) (c : Cluster) :
  Forall2 phasesAbsorbed
    (workloadInstances c) (workloadInstances (reconcileAll reqs c)).
Proof.
  revert c; induction reqs as [|req reqs IH]; intros c; simpl.
  - apply Forall2_refl. intros x; split; auto.
  - apply (@Forall2_trans _ phasesAbsorbed phasesAbsorbed phasesAbsorbed _
             (workloadInstances (snd (Reconcile req c)))); [| |apply IH].
    + intros x y z [H1 H2] [H3 H4]; split; auto.
    + destruct (Reconcile_effects req c) as (H & _).
      eapply Forall2_impl; [|exact H].
      intros a b [| s Hc Hn | p Hc Hn Hp]; split; cbn; auto.
      intros Ht. destruct (Hstart a Ht); congruence.
Qed.

Lemma remove_incl {A} (key : A -> NamespacedName) k l x :
  In x (remove key k l) -> In x l.
Proof.
  induction l as [|o r IH]; simpl; [auto|].
  destruct (NamespacedName_eqb (key o) k); simpl; intuition.
Qed.

(** C1, as amended. No pass writes the post-deployment phase or the
    post-deployment task name of an instance, whatever its pre-deployment
    phase; and a task found in the store after a pass was there before or
    is the task built from the pre-deployment check of a stored instance:
    no pass creates a post-deployment task. *)
Theorem Reconcile_post_deployment_untouched (req : NamespacedName) (c : Cluster) :
  Forall2 postDeploymentKept
    (workloadInstances c) (workloadInstances (snd (Reconcile req c)))
  /\ forall ev, In ev (tasks (snd (Reconcile req c))) ->
       In ev (tasks c)
       \/ exists wi s, In wi (workloadInstances c)
            /\ ev = preDeploymentEvent wi (taskName wi s)
            /\ esJobSpec (evSpec ev) = cdJobSpec (PreDeploymentCheck (wiSpec wi)).
Proof.
  destruct (Reconcile_effects req c) as (Hw & Ht & _). split.
  - eapply Forall2_impl; [|exact Hw]. intros a b []; split; reflexivity.
  - intros ev Hin. inversion Ht as [Heq | wi s Hwi Heq | k Heq];
      rewrite <- Heq in Hin.
    + left; exact Hin.
    + apply in_app_or in Hin. destruct Hin as [Hin|[<-|[]]]; [left; exact Hin|].
      right. exists wi, s. repeat split; assumption.
    + left. eapply remove_incl; eassumption.
Qed.
End Claims.

Lemma specApi_start (wi : KeptnWorkloadInstance) :
  @terminalPhase specApi (PreDeploymentPhase (wiStatus wi)) ->
  @IsCompleted specApi wi = true \/ @IsDeploymentCheckNotCreated specApi wi = false.
Proof.
  intros [H|H]; right; cbn in *; rewrite H; reflexivity.
Qed.

Lemma terminal_phases_absorbing_witness :
  Forall2 (@phasesAbsorbed specApi)
    (workloadInstances (clusterTaskSucceeded []))
    (workloadInstances
       (@reconcileAll specApi [checkoutReq; checkoutReq] (clusterTaskSucceeded []))).
Proof.
  apply (@terminal_phases_absorbing specApi specApi_start).
Defined.

(** C5, as stated, fails: the pass that folds the succeeded task into the
    status sets the phase to Succeeded and keeps the name of the task. *)
Lemma task_name_invariant_broken :
  @taskNameInvariant specApi (clusterTaskSucceeded [])
  /\ ~ @taskNameInvariant specApi
         (snd (@Reconcile specApi checkoutReq (clusterTaskSucceeded []))).
Proof.
  split.
  - repeat constructor; cbn; congruence.
  - intros H. inversion H as [|wi l [H1 _] _]; subst. cbn in H1.
    discriminate H1. discriminate.
Qed.

(** C1, as stated, fails: the pre-deployment phase is Failed and the pass
    leaves the post-deployment phase at NotStarted. *)
Lemma pre_failed_post_not_failed :
  exists wi wi',
    lookup wiKey checkoutReq (workloadInstances clusterPreFailed) = Some wi
    /\ PreDeploymentPhase (wiStatus wi) = @WorkloadInstanceFailed specApi
    /\ lookup wiKey checkoutReq
         (workloadInstances (snd (@Reconcile specApi checkoutReq clusterPreFailed)))
       = Some wi'
    /\ PostDeploymentPhase (wiStatus wi') <> @WorkloadInstanceFailed specApi.
Proof.
  eexists _, _. split; [reflexivity|]. split; [reflexivity|].
  split; [reflexivity|]. cbn. discriminate.
Qed.

(** ** The faults of a pass, call by call *)

Lemma fault_0 c : hd None (faults c) = fault 0 c.
Proof. unfold fault; destruct (faults c); reflexivity. Qed.

Lemma fault_1 c : hd None (tl (faults c)) = fault 1 c.
Proof. unfold fault; destruct (faults c) as [|? [|? ?]]; reflexivity. Qed.

Lemma fault_2 c : hd None (tl (tl (faults c))) = fault 2 c.
Proof. unfold fault; destruct (faults c) as [|? [|? [|? ?]]]; reflexivity. Qed.

Lemma fault_3 c : hd None (tl (tl (tl (faults c)))) = fault 3 c.
Proof. unfold fault; destruct (faults c) as [|? [|? [|? [|? ?]]]]; reflexivity. Qed.

Lemma fault_4 c : hd None (tl (tl (tl (tl (faults c))))) = fault 4 c.
Proof.
  unfold fault; destruct (faults c) as [|? [|? [|? [|? [|? ?]]]]]; reflexivity.
Qed.

Lemma lookup_replace {A} (key : A -> NamespacedName) k f l (o : A) :
  lookup key k l = Some o -> key (f o) = key o ->
  lookup key k (replace key k f l) = Some (f o).
Proof.
  induction l as [|x r IH]; simpl; [discriminate|].
  destruct (NamespacedName_eqb (key x) k) eqn:E; simpl.
  - intros H Hk; injection H as <-. rewrite Hk, E. reflexivity.
  - intros H Hk. rewrite E. auto.
Qed.

Section Passes.
Context {api : V1alpha1}.

Lemma reconcileFinish_foldedPhase wi ev :
  reconcileFinish wi ev =
  (let workloadInstance := setPreDeploymentPhase wi (foldedPhase ev) in
   err <- DeleteEvent ev ;;
   match err with
   | Some e => ret (emptyResult, Some e)
   | None =>
       err <- StatusUpdate workloadInstance ;;
       match err with
       | Some e => ret (emptyResult, Some e)
       | None =>
           k8sEvent <- generateK8sEvent workloadInstance "finished" ;;
           err <- CreateCoreEvent k8sEvent ;;
           match err with
           | Some e => ret (emptyResult, Some e)
           | None => ret (emptyResult, None)
           end
       end
   end).
Proof.
  unfold reconcileFinish, foldedPhase.
  destruct (String.eqb (evPhase ev) EventFailed); reflexivity.
Qed.

(** The pass up to the point where the task has been read. *)
Lemma Reconcile_polls req c wi :
  fault 0 c = None ->
  lookup wiKey req (workloadInstances c) = Some wi ->
  IsCompleted wi = false -> IsDeploymentCheckNotCreated wi = false ->
  Reconcile req c =
  match fault 1 c with
  | Some e =>
      if IsNotFound (Some e)
      then ((emptyResult, Some e), setFaults c (tl (tl (faults c))))
      else (if EventIsCompleted zeroEvent
            then reconcileFinish wi zeroEvent
            else ret (requeueAfter5s, None)) (setFaults c (tl (tl (faults c))))
  | None =>
      match lookup evKey (taskRef wi) (tasks c) with
      | Some ev =>
          (if EventIsCompleted ev
           then reconcileFinish wi ev
           else ret (requeueAfter5s, None)) (setFaults c (tl (tl (faults c))))
      | None => ((emptyResult, Some (StatusError StatusReasonNotFound)),
                 setFaults c (tl (tl (faults c))))
      end
  end.
Proof.
  intros Hf Hl Hc Hn. unfold Reconcile, getPreDeploymentChecksEvent.
  run_step. rewrite fault_0, Hf, Hl. cbv beta iota. cbn [IsNotFound].
  rewrite Hc, Hn. run_step. rewrite fault_1. fold (taskRef wi).
  destruct (fault 1 c) as [e|].
  - destruct e as [[]|]; reflexivity.
  - destruct (lookup evKey (taskRef wi) (tasks c)); reflexivity.
Qed.

(** C4, as amended. When the instance is neither completed nor waiting for
    its check to be created, and the task its status names is not in the
    store, the pass returns the NotFound error of the read and leaves every
    object as it was: the phase is not persisted as terminal. *)
Theorem Reconcile_task_gone (req : NamespacedName) (c : Cluster)
  (wi : KeptnWorkloadInstance)
  (Hfetch : fault 0 c = None)
  (Hwi : lookup wiKey req (workloadInstances c) = Some wi)
  (Hcompleted : IsCompleted wi = false)
  (Hcreated : IsDeploymentCheckNotCreated wi = false)
  (Hread : fault 1 c = None)
  (Hgone : lookup evKey (taskRef wi) (tasks c) = None) :
  Reconcile req c =
  ((emptyResult, Some (StatusError StatusReasonNotFound)),
   setFaults c (tl (tl (faults c)))).
Proof.
  rewrite (Reconcile_polls req c Hfetch Hwi Hcompleted Hcreated), Hread, Hgone.
  reflexivity.
Qed.

(** The branch that folds the task into the status, call by call. *)
Lemma reconcileFinish_run req wi ev c c0 :
  lookup wiKey req (workloadInstances c) = Some wi ->
  lookup evKey (evKey ev) (tasks c) = Some ev ->
  workloadInstances c0 = workloadInstances c -> tasks c0 = tasks c ->
  coreEvents c0 = coreEvents c -> clock c0 = clock c ->
  let wi' := setPreDeploymentPhase wi (foldedPhase ev) in
  let r := reconcileFinish wi ev c0 in
  match hd None (faults c0) with
  | Some e =>
      r = ((emptyResult, Some e), setFaults c0 (tl (faults c0)))
  | None =>
      tasks (snd r) = remove evKey (evKey ev) (tasks c)
      /\ match hd None (tl (faults c0)) with
         | Some e =>
             fst r = (emptyResult, Some e)
             /\ workloadInstances (snd r) = workloadInstances c
             /\ coreEvents (snd r) = coreEvents c
         | None =>
             workloadInstances (snd r)
             = replace wiKey req (fun o => withStatus o (wiStatus wi'))
                 (workloadInstances c)
             /\ lookup wiKey req (workloadInstances (snd r)) = Some wi'
             /\ match hd None (tl (tl (faults c0))) with
                | Some e =>
                    fst r = (emptyResult, Some e)
                    /\ coreEvents (snd r) = coreEvents c
                | None =>
                    fst r = (emptyResult, None)
                    /\ coreEvents (snd r)
                       = coreEvents c ++ [fst (generateK8sEvent wi' "finished" c)]
                end
         end
  end.
Proof.
  intros Hl Hev Hw Ht He Hk wi' r. subst r.
  assert (Hreq : wiKey wi = req) by (eapply lookup_key; eassumption).
  assert (Hstored : lookup wiKey req
            (replace wiKey req (fun o => withStatus o (wiStatus wi'))
               (workloadInstances c)) = Some wi').
  { rewrite (lookup_replace wiKey req
               (fun o => withStatus o (wiStatus wi')) (workloadInstances c) Hl);
      reflexivity. }
  rewrite reconcileFinish_foldedPhase. fold wi'. cbv zeta.
  run_step. rewrite Ht, Hev.
  destruct (hd None (faults c0)) as [e|]; [reflexivity|].
  run_step. rewrite Hw.
  change (wiKey wi') with (wiKey wi). rewrite Hreq, Hl.
  destruct (hd None (tl (faults c0))) as [e|]; run_step.
  - rewrite Hw, He. auto.
  - destruct (hd None (tl (tl (faults c0)))) as [e|]; run_step.
    + rewrite He. auto.
    + rewrite He, Hk. repeat split; auto.
Qed.

(** C8, as amended. A pass that reads the instance and the task its status
    names: if the task is not completed the pass asks to be run again in
    five seconds and changes no object; if it is completed the phase is
    Failed for a failed task and Succeeded otherwise, and the pass deletes
    the task, persists the status, posts the record of the end of the
    checks and returns done, as long as each of the three calls succeeds;
    the first of them that fails ends the pass with its error, the calls
    before it having taken effect. *)
Theorem Reconcile_task_fetched (req : NamespacedName) (c : Cluster)
  (wi : KeptnWorkloadInstance) (ev : Event)
  (Hfetch : fault 0 c = None)
  (Hwi : lookup wiKey req (workloadInstances c) = Some wi)
  (Hcompleted : IsCompleted wi = false)
  (Hcreated : IsDeploymentCheckNotCreated wi = false)
  (Hread : fault 1 c = None)
  (Hev : lookup evKey (taskRef wi) (tasks c) = Some ev) :
  let r := Reconcile req c in
  let wi' := setPreDeploymentPhase wi (foldedPhase ev) in
  (EventIsCompleted ev = false ->
     r = ((requeueAfter5s, None), setFaults c (tl (tl (faults c)))))
  /\ (evPhase ev = EventFailed ->
        PreDeploymentPhase (wiStatus wi') = WorkloadInstanceFailed)
  /\ (evPhase ev <> EventFailed ->
        PreDeploymentPhase (wiStatus wi') = WorkloadInstanceSucceeded)
  /\ (EventIsCompleted ev = true ->
        (fault 2 c = None -> fault 3 c = None -> fault 4 c = None ->
           fst r = (emptyResult, None)
           /\ tasks (snd r) = remove evKey (evKey ev) (tasks c)
           /\ lookup wiKey req (workloadInstances (snd r)) = Some wi'
           /\ workloadInstances (snd r)
              = replace wiKey req (fun o => withStatus o (wiStatus wi'))
                  (workloadInstances c)
           /\ coreEvents (snd r)
              = coreEvents c ++ [fst (generateK8sEvent wi' "finished" c)])
        /\ (forall e, fault 2 c = Some e ->
              fst r = (emptyResult, Some e)
              /\ workloadInstances (snd r) = workloadInstances c
              /\ tasks (snd r) = tasks c
              /\ coreEvents (snd r) = coreEvents c)
        /\ (forall e, fault 2 c = None -> fault 3 c = Some e ->
              fst r = (emptyResult, Some e)
              /\ workloadInstances (snd r) = workloadInstances c
              /\ tasks (snd r) = remove evKey (evKey ev) (tasks c)
              /\ coreEvents (snd r) = coreEvents c)
        /\ (forall e, fault 2 c = None -> fault 3 c = None -> fault 4 c = Some e ->
              fst r = (emptyResult, Some e)
              /\ lookup wiKey req (workloadInstances (snd r)) = Some wi'
              /\ tasks (snd r) = remove evKey (evKey ev) (tasks c)
              /\ coreEvents (snd r) = coreEvents c)).
Proof.
  intros r wi'. subst r.
  rewrite (Reconcile_polls req c Hfetch Hwi Hcompleted Hcreated), Hread, Hev.
  assert (Hkey : evKey ev = taskRef wi) by (eapply lookup_key; eassumption).
  assert (Hev' : lookup evKey (evKey ev) (tasks c) = Some ev)
    by (rewrite Hkey; exact Hev).
  split; [intros ->; reflexivity|].
  split; [intros H; cbn; unfold foldedPhase; rewrite H, String.eqb_refl;
          reflexivity|].
  split; [intros H; cbn; unfold foldedPhase;
          destruct (String.eqb_spec (evPhase ev) EventFailed);
          [contradiction|reflexivity]|].
  intros ->.
  pose proof (@reconcileFinish_run req wi ev c (setFaults c (tl (tl (faults c))))
                Hwi Hev' eq_refl eq_refl eq_refl eq_refl) as H.
  cbv zeta in H. cluster_simpl. cbn [faults setFaults] in H.
  rewrite fault_2, fault_3, fault_4 in H.
  fold wi' in H.
  split; [|split; [|split]].
  - intros H2 H3 H4. rewrite H2, H3, H4 in H. tauto.
  - intros e H2. rewrite H2 in H. rewrite H. cluster_simpl. auto.
  - intros e H2 H3. rewrite H2, H3 in H. tauto.
  - intros e H2 H3 H4. rewrite H2, H3, H4 in H. tauto.
Qed.
End Passes.

Lemma Reconcile_task_gone_witness :
  @Reconcile specApi checkoutReq clusterTaskGone =
  ((emptyResult, Some (StatusError StatusReasonNotFound)),
   setFaults clusterTaskGone (tl (tl (faults clusterTaskGone)))).
Proof.
  apply (@Reconcile_task_gone specApi checkoutReq clusterTaskGone
           (checkout "Running" "NotStarted" "checkout-0123456789"));
    reflexivity.
Defined.

(** C4, as stated, fails: the task is gone, the phase is persisted as
    Running, and the pass returns an error and leaves the phase at Running. *)
Lemma task_gone_not_healed :
  lookup wiKey checkoutReq (workloadInstances clusterTaskGone)
  = Some (checkout "Running" "NotStarted" "checkout-0123456789")
  /\ lookup evKey (mkNamespacedName "ns" "checkout-0123456789")
       (tasks clusterTaskGone) = None
  /\ snd (fst (@Reconcile specApi checkoutReq clusterTaskGone))
     = Some (StatusError StatusReasonNotFound)
  /\ lookup wiKey checkoutReq
       (workloadInstances (snd (@Reconcile specApi checkoutReq clusterTaskGone)))
     = Some (checkout "Running" "NotStarted" "checkout-0123456789").
Proof. repeat split. Qed.

Lemma Reconcile_task_fetched_witness :
  fst (@Reconcile specApi checkoutReq (clusterTaskSucceeded [])) = (emptyResult, None)
  /\ tasks (snd (@Reconcile specApi checkoutReq (clusterTaskSucceeded []))) = []
  /\ lookup wiKey checkoutReq
       (workloadInstances
          (snd (@Reconcile specApi checkoutReq (clusterTaskSucceeded []))))
     = Some (checkout "Succeeded" "NotStarted" "checkout-0123456789").
Proof.
  destruct (@Reconcile_task_fetched specApi checkoutReq (clusterTaskSucceeded [])
              (checkout "Running" "NotStarted" "checkout-0123456789")
              (checkoutTask "checkout-0123456789" "Succeeded")
              eq_refl eq_refl eq_refl eq_refl eq_refl eq_refl)
    as (_ & _ & _ & H).
  destruct (H eq_refl) as (Hok & _).
  destruct (Hok eq_refl eq_refl eq_refl) as (H1 & H2 & H3 & _).
  exact (conj H1 (conj H2 H3)).
Defined.

(** C8, as stated, fails: the task is read and is completed, the server
    refuses the delete, and the pass returns that error with the task still
    stored, the phase still Running and no record posted. *)
Lemma task_fetched_delete_refused :
  let c := clusterTaskSucceeded
             [None; None; Some (StatusError StatusReasonServiceUnavailable)] in
  let r := @Reconcile specApi checkoutReq c in
  lookup evKey (mkNamespacedName "ns" "checkout-0123456789") (tasks c)
  = Some (checkoutTask "checkout-0123456789" "Succeeded")
  /\ @EventIsCompleted specApi (checkoutTask "checkout-0123456789" "Succeeded") = true
  /\ fst r <> (emptyResult, None)
  /\ fst r = (emptyResult, Some (StatusError StatusReasonServiceUnavailable))
  /\ tasks (snd r) = tasks c
  /\ workloadInstances (snd r) = workloadInstances c
  /\ coreEvents (snd r) = [].
Proof. cbv zeta. repeat split. cbn. discriminate. Qed.

(** C2: every name the five attempts try is taken, and
    [startPreDeploymentChecks] returns a sixth name with a nil error, under
    which it created no task. *)
Theorem startPreDeploymentChecks_names_taken :
  let wi := checkout "NotStarted" "NotStarted" "" in
  let r := startPreDeploymentChecks wi clusterNamesTaken in
  fst r = ("checkout-ffffffff-f", None)
  /\ tasks (snd r) = tasks clusterNamesTaken
  /\ lookup evKey (mkNamespacedName "ns" "checkout-ffffffff-f") (tasks (snd r)) = None.
Proof. cbv zeta. repeat split. Qed.

(** C3: the server fails the read of the task with ServiceUnavailable, and
    the pass goes on with an empty task and returns a requeue with a nil
    error. *)
Theorem Reconcile_read_error_swallowed :
  fst (@Reconcile specApi checkoutReq
         (clusterTaskSucceeded
            [None; Some (StatusError StatusReasonServiceUnavailable)]))
  = (requeueAfter5s, None).
Proof. reflexivity. Qed.

(** C7: every name the five attempts try is taken; the pass creates no task
    and still sets the phase to Running, stores the name of a task that does
    not exist, posts the record and asks to be run again in five seconds. *)
Theorem Reconcile_names_taken :
  let r := @Reconcile specApi checkoutReq clusterNamesTaken in
  fst r = (requeueAfter5s, None)
  /\ tasks (snd r) = tasks clusterNamesTaken
  /\ lookup wiKey checkoutReq (workloadInstances (snd r))
     = Some (checkout "Running" "NotStarted" "checkout-ffffffff-f")
  /\ lookup evKey (mkNamespacedName "ns" "checkout-ffffffff-f") (tasks (snd r)) = None
  /\ List.length (coreEvents (snd r)) = 1.
Proof. cbv zeta. repeat split. Qed.

(** * Further properties of the controller *)

(** ** The retry loop, round by round *)

Lemma skipn_tl {A} (k : nat) (l : list A) : skipn k (tl l) = skipn (S k) l.
Proof. destruct l; [destruct k|]; reflexivity. Qed.

Lemma nth_tl {A} (d : A) (k : nat) (l : list A) : nth k (tl l) d = nth (S k) l d.
Proof. destruct l; [destruct k|]; reflexivity. Qed.

Lemma hd_nth {A} (d : A) (l : list A) : hd d l = nth 0 l d.
Proof. destruct l; reflexivity. Qed.

Lemma afterAttempts_step k c :
  afterAttempts k (setUuids (setFaults c (tl (faults c))) (tl (uuids c)))
  = afterAttempts (S k) c.
Proof.
  unfold afterAttempts; cluster_simpl. rewrite !skipn_tl. reflexivity.
Qed.

Lemma conflictAt_step wi s c i :
  conflictAt wi s c (S i) ->
  conflictAt wi (substring 0 10 (hd "" (uuids c)))
    (setUuids (setFaults c (tl (faults c))) (tl (uuids c))) i.
Proof.
  unfold conflictAt, fault; cluster_simpl. rewrite !nth_tl.
  replace (attemptName wi (substring 0 10 (hd "" (uuids c))) (tl (uuids c)) i)
    with (attemptName wi s (uuids c) (S i)); [auto|].
  destruct i; cbn [attemptName]; [rewrite hd_nth|rewrite nth_tl]; reflexivity.
Qed.

(** A round that meets [AlreadyExists] changes no object, uses one call and
    one identifier, and leaves the loop with one round less and the next name. *)
Lemma createLoop_conflict n wi s c :
  conflictAt wi s c 0 ->
  createLoop (S n) wi (preDeploymentEvent wi (taskName wi s)) c
  = createLoop n wi
      (preDeploymentEvent wi (taskName wi (substring 0 10 (hd "" (uuids c)))))
      (setUuids (setFaults c (tl (faults c))) (tl (uuids c))).
Proof.
  unfold conflictAt, fault. rewrite <- hd_nth. cbn [attemptName].
  intros H. cbn [createLoop]. unfold generateSuffix.
  cbv beta iota delta [bind ret uuidNew]. rewrite run_CreateEvent.
  destruct H as [-> | [-> H]]; [reflexivity|].
  change (evKey (preDeploymentEvent wi (taskName wi s)))
    with (mkNamespacedName (wiNamespace wi) (taskName wi s)).
  destruct (lookup evKey _ (tasks c)); [reflexivity|contradiction].
Qed.

Lemma createLoop_conflicts k n wi s c :
  (forall i, i < k -> conflictAt wi s c i) ->
  createLoop (k + n) wi (preDeploymentEvent wi (taskName wi s)) c
  = createLoop n wi (preDeploymentEvent wi (attemptName wi s (uuids c) k))
      (afterAttempts k c).
Proof.
  revert s c; induction k as [|k IH]; intros s c H.
  - destruct c; reflexivity.
  - cbn [Nat.add]. rewrite createLoop_conflict by (apply H; lia).
    rewrite IH by (intros i Hi; apply conflictAt_step with (s := s), H; lia).
    rewrite afterAttempts_step. f_equal. f_equal. cluster_simpl.
    destruct k; cbn [attemptName]; [rewrite hd_nth|rewrite nth_tl]; reflexivity.
Qed.

Lemma attemptName_suffixAt wi c i :
  attemptName wi (substring 0 10 (hd "" (uuids c))) (tl (uuids c)) i
  = taskName wi (suffixAt c i).
Proof.
  unfold suffixAt. destruct i; cbn [attemptName]; [rewrite hd_nth|rewrite nth_tl];
    reflexivity.
Qed.

Lemma attemptConflicts_conflictAt wi c i :
  attemptConflicts wi c i ->
  conflictAt wi (substring 0 10 (hd "" (uuids c))) (setUuids c (tl (uuids c))) i.
Proof.
  unfold attemptConflicts, conflictAt, nameAt, fault; cluster_simpl.
  rewrite attemptName_suffixAt. auto.
Qed.

(** [startPreDeploymentChecks] after [k] attempts that met [AlreadyExists]. *)
Lemma startPreDeploymentChecks_after k n wi c :
  (forall i, i < k -> attemptConflicts wi c i) ->
  k + n = 5 ->
  startPreDeploymentChecks wi c
  = createLoop n wi (preDeploymentEvent wi (taskName wi (suffixAt c k)))
      (setUuids (setFaults c (skipn k (faults c))) (skipn (S k) (uuids c))).
Proof.
  intros H Hk. unfold startPreDeploymentChecks, generateSuffix.
  cbv beta iota zeta delta [bind ret uuidNew].
  match goal with
  | |- context [createLoop 5 ?w ?e ?c0] =>
      replace (createLoop 5 w e c0) with (createLoop (k + n) w e c0)
        by (rewrite Hk; reflexivity)
  end.
  change (mkEvent (wiName wi ++ "-" ++ substring 0 10 (hd "" (uuids c)))
            (wiNamespace wi) (wiAnnotations wi)
            (mkEventSpec (wiName wi) (AppName (wiSpec wi))
               (cdJobSpec (PreDeploymentCheck (wiSpec wi)))) "")
    with (preDeploymentEvent wi (taskName wi (substring 0 10 (hd "" (uuids c))))).
  rewrite createLoop_conflicts
    by (intros i Hi; apply attemptConflicts_conflictAt, H, Hi).
  cluster_simpl. rewrite attemptName_suffixAt.
  unfold afterAttempts; cluster_simpl. rewrite skipn_tl. reflexivity.
Qed.

Lemma hd_skipn_fault k c : hd None (skipn k (faults c)) = fault k c.
Proof. apply hd_skipn. Qed.

(** The cluster [startPreDeploymentChecks] leaves when its attempt [k] is
    accepted. *)
Lemma startPreDeploymentChecks_accepted wi c k :
  k < 5 ->
  (forall i, i < k -> attemptConflicts wi c i) ->
  fault k c = None ->
  lookup evKey (nameAt wi c k) (tasks c) = None ->
  startPreDeploymentChecks wi c
  = ((taskName wi (suffixAt c k), None),
     mkCluster (workloadInstances c)
       (tasks c ++ [preDeploymentEvent wi (taskName wi (suffixAt c k))])
       (coreEvents c) (skipn (S k) (faults c)) (skipn (S k) (uuids c)) (clock c)).
Proof.
  intros Hbound Hconflicts Hcall Hfree.
  rewrite (@startPreDeploymentChecks_after k (S (4 - k)) wi c Hconflicts) by lia.
  cbn [createLoop]. cbv beta iota delta [bind ret]. rewrite run_CreateEvent.
  cluster_simpl. rewrite hd_skipn_fault, Hcall.
  change (evKey (preDeploymentEvent wi (taskName wi (suffixAt c k))))
    with (nameAt wi c k).
  rewrite Hfree. cluster_simpl. rewrite tl_skipn. reflexivity.
Qed.

(** X1. Collision resilience: when the first [k] attempts, [k < 5], meet
    [AlreadyExists] and the next one is accepted, [startPreDeploymentChecks]
    returns the name of that attempt with a nil error, has created exactly
    the task of that name, and has made [k + 1] calls and drawn [k + 1]
    identifiers. *)
Theorem startPreDeploymentChecks_retry (wi : KeptnWorkloadInstance) (c : Cluster)
  (k : nat)
  (Hbound : k < 5)
  (Hconflicts : forall i, i < k -> attemptConflicts wi c i)
  (Hcall : fault k c = None)
  (Hfree : lookup evKey (nameAt wi c k) (tasks c) = None) :
  let r := startPreDeploymentChecks wi c in
  fst r = (taskName wi (suffixAt c k), None)
  /\ tasks (snd r) = tasks c ++ [preDeploymentEvent wi (taskName wi (suffixAt c k))]
  /\ faults (snd r) = skipn (S k) (faults c)
  /\ uuids (snd r) = skipn (S k) (uuids c)
  /\ workloadInstances (snd r) = workloadInstances c
  /\ coreEvents (snd r) = coreEvents c.
Proof.
  cbv zeta. rewrite (startPreDeploymentChecks_accepted Hbound Hconflicts Hcall Hfree).
  repeat split.
Qed.

(** X2. An attempt that fails with another error ends [startPreDeploymentChecks]
    at once: it returns the empty name and that error, and has created no
    task. *)
Theorem startPreDeploymentChecks_error (wi : KeptnWorkloadInstance) (c : Cluster)
  (k : nat) (e : error)
  (Hbound : k < 5)
  (Hconflicts : forall i, i < k -> attemptConflicts wi c i)
  (Hcall : fault k c = Some e)
  (Hother : IsAlreadyExists (Some e) = false) :
  let r := startPreDeploymentChecks wi c in
  fst r = ("", Some e)
  /\ tasks (snd r) = tasks c
  /\ faults (snd r) = skipn (S k) (faults c)
  /\ workloadInstances (snd r) = workloadInstances c
  /\ coreEvents (snd r) = coreEvents c.
Proof.
  cbv zeta. rewrite (@startPreDeploymentChecks_after k (S (4 - k)) wi c Hconflicts)
    by lia.
  cbn [createLoop]. cbv beta iota delta [bind ret]. rewrite run_CreateEvent.
  cluster_simpl. rewrite hd_skipn_fault, Hcall. cbv beta iota. rewrite Hother.
  cluster_simpl. rewrite tl_skipn. repeat split.
Qed.

(** X3. When all five attempts meet [AlreadyExists] the loop is over and
    [startPreDeploymentChecks] returns the name it drew last, the sixth, with
    a nil error: it has made five calls, drawn six identifiers and created
    no task. *)
Theorem startPreDeploymentChecks_exhausted (wi : KeptnWorkloadInstance) (c : Cluster)
  (Hconflicts : forall i, i < 5 -> attemptConflicts wi c i) :
  let r := startPreDeploymentChecks wi c in
  fst r = (taskName wi (suffixAt c 5), None)
  /\ tasks (snd r) = tasks c
  /\ faults (snd r) = skipn 5 (faults c)
  /\ uuids (snd r) = skipn 6 (uuids c).
Proof.
  cbv zeta. rewrite (@startPreDeploymentChecks_after 5 0 wi c Hconflicts) by lia.
  repeat split.
Qed.

Lemma startPreDeploymentChecks_retry_witness :
  fst (startPreDeploymentChecks (checkout "NotStarted" "NotStarted" "") clusterFourTaken)
  = ("checkout-eeeeeeee-e", None).
Proof.
  refine (proj1 (@startPreDeploymentChecks_retry
                   (checkout "NotStarted" "NotStarted" "") clusterFourTaken 4
                   _ _ eq_refl eq_refl)).
  - lia.
  - intros i Hi. destruct i as [|[|[|[|i]]]];
      try (right; split; [reflexivity|cbn; discriminate]). lia.
Defined.

Lemma startPreDeploymentChecks_error_witness :
  fst (startPreDeploymentChecks (checkout "NotStarted" "NotStarted" "") clusterForbidden)
  = ("", Some (StatusError StatusReasonForbidden)).
Proof.
  refine (proj1 (@startPreDeploymentChecks_error
                   (checkout "NotStarted" "NotStarted" "") clusterForbidden 0
                   (StatusError StatusReasonForbidden) _ _ eq_refl eq_refl)).
  - lia.
  - intros i Hi. lia.
Defined.

Lemma startPreDeploymentChecks_exhausted_witness :
  fst (startPreDeploymentChecks (checkout "NotStarted" "NotStarted" "") clusterNamesTaken)
  = ("checkout-ffffffff-f", None).
Proof.
  refine (proj1 (@startPreDeploymentChecks_exhausted
                   (checkout "NotStarted" "NotStarted" "") clusterNamesTaken _)).
  intros i Hi. destruct i as [|[|[|[|[|i]]]]];
    try (right; split; [reflexivity|cbn; discriminate]). lia.
Defined.

(** ** Bounds on the calls of a pass *)

Lemma createLoop_calls n wi ev c :
  exists k u,
    k <= n /\ (0 < n -> 0 < k) /\ u < S k
    /\ faults (snd (createLoop n wi ev c)) = skipn k (faults c)
    /\ uuids (snd (createLoop n wi ev c)) = skipn u (uuids c).
Proof.
  revert ev c; induction n as [|n IH]; intros ev c.
  - exists 0, 0. repeat split; lia.
  - cbn [createLoop]. unfold generateSuffix.
    cbv beta iota delta [bind ret uuidNew]. rewrite run_CreateEvent.
    assert (Hnext : forall ev',
      exists k u, k <= S n /\ (0 < S n -> 0 < k) /\ u < S k
        /\ faults (snd (createLoop n wi ev'
                          (setUuids (setFaults c (tl (faults c))) (tl (uuids c)))))
           = skipn k (faults c)
        /\ uuids (snd (createLoop n wi ev'
                         (setUuids (setFaults c (tl (faults c))) (tl (uuids c)))))
           = skipn u (uuids c)).
    { intros ev'.
      destruct (IH ev' (setUuids (setFaults c (tl (faults c))) (tl (uuids c))))
        as (k & u & Hk & _ & Hu & Hf & Hi).
      exists (S k), (S u).
      rewrite Hf, Hi. cluster_simpl. rewrite !skipn_tl.
      repeat split; lia. }
    assert (Hstop : exists k u, k <= S n /\ (0 < S n -> 0 < k) /\ u < S k
              /\ tl (faults c) = skipn k (faults c)
              /\ uuids c = skipn u (uuids c)).
    { exists 1, 0. repeat split; lia. }
    destruct (hd None (faults c)) as [e|].
    + cbv beta iota. destruct (IsAlreadyExists (Some e)); [apply Hnext|exact Hstop].
    + destruct (lookup evKey (evKey ev) (tasks c)); cbv beta iota;
        [apply Hnext|exact Hstop].
Qed.

(** X4. [startPreDeploymentChecks] makes at least one and at most five calls to
    the store and draws at least one and at most six identifiers, whatever
    the store answers; it never touches an instance or posts a record. *)
Theorem startPreDeploymentChecks_bounded (wi : KeptnWorkloadInstance) (c : Cluster) :
  let c' := snd (startPreDeploymentChecks wi c) in
  (exists k u,
     1 <= k <= 5 /\ 1 <= u <= 6
     /\ faults c' = skipn k (faults c) /\ uuids c' = skipn u (uuids c))
  /\ workloadInstances c' = workloadInstances c
  /\ coreEvents c' = coreEvents c
  /\ clock c' = clock c.
Proof.
  cbv zeta. split; [|apply startPreDeploymentChecks_outcome].
  unfold startPreDeploymentChecks, generateSuffix.
  cbv beta iota zeta delta [bind ret uuidNew].
  match goal with
  | |- context [createLoop 5 wi ?ev ?c0] =>
      destruct (createLoop_calls 5 wi ev c0) as (k & u & Hk & Hpos & Hu & Hf & Hi)
  end.
  exists k, (S u). rewrite Hf, Hi. cluster_simpl. rewrite skipn_tl.
  repeat split; lia.
Qed.

(** ** The branch that starts the checks, call by call *)

Section Starting.
Context {api : V1alpha1}.

Lemma Reconcile_starts req c wi :
  fault 0 c = None ->
  lookup wiKey req (workloadInstances c) = Some wi ->
  IsCompleted wi = false -> IsDeploymentCheckNotCreated wi = true ->
  Reconcile req c = reconcileStart wi (setFaults c (tl (faults c))).
Proof.
  intros Hf Hl Hc Hn. unfold Reconcile. run_step.
  rewrite fault_0, Hf, Hl. cbv beta iota. cbn [IsNotFound]. rewrite Hc, Hn.
  reflexivity.
Qed.

Lemma reconcileStart_run wi c0 n c1 :
  startPreDeploymentChecks wi c0 = ((n, None), c1) ->
  let wi' := setPreDeploymentPhase (setPreDeploymentTaskName wi n)
               WorkloadInstanceRunning in
  let posted := coreEvents c1 ++ [fst (generateK8sEvent wi' "started" c1)] in
  reconcileStart wi c0 =
  match hd None (faults c1) with
  | Some e =>
      ((emptyResult, Some e),
       mkCluster (workloadInstances c1) (tasks c1) (coreEvents c1)
         (tl (faults c1)) (uuids c1) (tl (tl (tl (clock c1)))))
  | None =>
      match hd None (tl (faults c1)) with
      | Some e =>
          ((emptyResult, Some e),
           mkCluster (workloadInstances c1) (tasks c1) posted
             (tl (tl (faults c1))) (uuids c1) (tl (tl (tl (clock c1)))))
      | None =>
          match lookup wiKey (wiKey wi) (workloadInstances c1) with
          | Some _ =>
              ((requeueAfter5s, None),
               mkCluster
                 (replace wiKey (wiKey wi) (fun o => withStatus o (wiStatus wi'))
                    (workloadInstances c1))
                 (tasks c1) posted
                 (tl (tl (faults c1))) (uuids c1) (tl (tl (tl (clock c1)))))
          | None =>
              ((emptyResult, Some (StatusError StatusReasonNotFound)),
               mkCluster (workloadInstances c1) (tasks c1) posted
                 (tl (tl (faults c1))) (uuids c1) (tl (tl (tl (clock c1)))))
          end
      end
  end.
Proof.
  intros Hs wi' posted. unfold reconcileStart, bind at 1. rewrite Hs.
  cbv beta iota. fold wi'. run_step.
  destruct (hd None (faults c1)) as [e|]; [reflexivity|]. run_step.
  destruct (hd None (tl (faults c1))) as [e|]; [reflexivity|].
  change (wiKey wi') with (wiKey wi).
  destruct (lookup wiKey (wiKey wi) (workloadInstances c1)); reflexivity.
Qed.

Lemma lookup_app_new {A} (key : A -> NamespacedName) k l (o : A) :
  lookup key k l = None -> key o = k -> lookup key k (l ++ [o]) = Some o.
Proof.
  intros Hl Hk. induction l as [|x r IH]; simpl in *.
  - rewrite Hk, NamespacedName_eqb_refl. reflexivity.
  - destruct (NamespacedName_eqb (key x) k); [discriminate|auto].
Qed.

(** The pass that starts the checks and meets no failure, as one equation. *)
Lemma Reconcile_started_run req c wi k :
  fault 0 c = None ->
  lookup wiKey req (workloadInstances c) = Some wi ->
  IsCompleted wi = false -> IsDeploymentCheckNotCreated wi = true ->
  k < 5 ->
  (forall i, i < k -> attemptConflicts wi (afterFetch c) i) ->
  fault k (afterFetch c) = None ->
  lookup evKey (nameAt wi c k) (tasks c) = None ->
  fault (S k) (afterFetch c) = None ->
  fault (S (S k)) (afterFetch c) = None ->
  let name := taskName wi (suffixAt c k) in
  let wi' := startedInstance wi name in
  Reconcile req c
  = ((requeueAfter5s, None),
     mkCluster
       (replace wiKey req (fun o => withStatus o (wiStatus wi')) (workloadInstances c))
       (tasks c ++ [preDeploymentEvent wi name])
       (coreEvents c ++ [fst (generateK8sEvent wi' "started" c)])
       (skipn (S (S (S k))) (faults (afterFetch c)))
       (skipn (S k) (uuids c))
       (tl (tl (tl (clock c))))).
Proof.
  intros Hf Hl Hc Hn Hk Hconf Hcall Hfree Hemit Hupd name wi'.
  assert (Hreq : wiKey wi = req) by (eapply lookup_key; eassumption).
  rewrite (Reconcile_starts req c Hf Hl Hc Hn). fold (afterFetch c).
  rewrite (@reconcileStart_run _ _ _ _
             (startPreDeploymentChecks_accepted (c := afterFetch c) Hk Hconf Hcall Hfree)).
  cbv zeta. cluster_simpl.
  rewrite hd_skipn_fault, Hemit, tl_skipn, hd_skipn_fault, Hupd.
  cbn [workloadInstances afterFetch setFaults]. rewrite Hreq, Hl, !tl_skipn.
  reflexivity.
Qed.

(** X5. A pass on an instance that is not completed and whose check is not
    created, when attempt [k] of the creation is accepted and the store
    accepts the event and the status: the pass creates exactly the task of
    that attempt, with the service, application and pre-deployment payload of
    the instance, persists the phase Running and the name of that task,
    posts the record of the start and asks to be run again in five
    seconds. *)
Theorem Reconcile_checks_started (req : NamespacedName) (c : Cluster)
  (wi : KeptnWorkloadInstance) (k : nat)
  (Hfetch : fault 0 c = None)
  (Hwi : lookup wiKey req (workloadInstances c) = Some wi)
  (Hcompleted : IsCompleted wi = false)
  (Hcreated : IsDeploymentCheckNotCreated wi = true)
  (Hbound : k < 5)
  (Hconflicts : forall i, i < k -> attemptConflicts wi (afterFetch c) i)
  (Hcall : fault k (afterFetch c) = None)
  (Hfree : lookup evKey (nameAt wi c k) (tasks c) = None)
  (Hemit : fault (S k) (afterFetch c) = None)
  (Hupdate : fault (S (S k)) (afterFetch c) = None) :
  let r := Reconcile req c in
  let name := taskName wi (suffixAt c k) in
  let wi' := startedInstance wi name in
  fst r = (requeueAfter5s, None)
  /\ tasks (snd r)
     = tasks c ++ [mkEvent name (wiNamespace wi) (wiAnnotations wi)
                     (mkEventSpec (wiName wi) (AppName (wiSpec wi))
                        (cdJobSpec (PreDeploymentCheck (wiSpec wi)))) ""]
  /\ lookup wiKey req (workloadInstances (snd r)) = Some wi'
  /\ PreDeploymentPhase (wiStatus wi') = WorkloadInstanceRunning
  /\ PreDeploymentTaskName (wiStatus wi') = name
  /\ coreEvents (snd r) = coreEvents c ++ [fst (generateK8sEvent wi' "started" c)].
Proof.
  cbv zeta.
  rewrite (Reconcile_started_run req Hfetch Hwi Hcompleted Hcreated Hbound
             Hconflicts Hcall Hfree Hemit Hupdate).
  cluster_simpl. repeat split.
  rewrite (lookup_replace wiKey req _ (workloadInstances c) Hwi); reflexivity.
Qed.

(** X6. The same pass when the store refuses the event or the status: the pass
    returns that error, and the task it has created stays in the store while
    the status still says that no check is created. *)
Theorem Reconcile_start_interrupted (req : NamespacedName) (c : Cluster)
  (wi : KeptnWorkloadInstance) (k : nat)
  (Hfetch : fault 0 c = None)
  (Hwi : lookup wiKey req (workloadInstances c) = Some wi)
  (Hcompleted : IsCompleted wi = false)
  (Hcreated : IsDeploymentCheckNotCreated wi = true)
  (Hbound : k < 5)
  (Hconflicts : forall i, i < k -> attemptConflicts wi (afterFetch c) i)
  (Hcall : fault k (afterFetch c) = None)
  (Hfree : lookup evKey (nameAt wi c k) (tasks c) = None) :
  let r := Reconcile req c in
  let name := taskName wi (suffixAt c k) in
  let wi' := startedInstance wi name in
  (forall e, fault (S k) (afterFetch c) = Some e ->
     fst r = (emptyResult, Some e)
     /\ tasks (snd r) = tasks c ++ [preDeploymentEvent wi name]
     /\ workloadInstances (snd r) = workloadInstances c
     /\ coreEvents (snd r) = coreEvents c)
  /\ (forall e, fault (S k) (afterFetch c) = None ->
        fault (S (S k)) (afterFetch c) = Some e ->
        fst r = (emptyResult, Some e)
        /\ tasks (snd r) = tasks c ++ [preDeploymentEvent wi name]
        /\ workloadInstances (snd r) = workloadInstances c
        /\ coreEvents (snd r)
           = coreEvents c ++ [fst (generateK8sEvent wi' "started" c)]).
Proof.
  cbv zeta.
  rewrite (Reconcile_starts req c Hfetch Hwi Hcompleted Hcreated). fold (afterFetch c).
  rewrite (@reconcileStart_run _ _ _ _
             (startPreDeploymentChecks_accepted (c := afterFetch c)
                Hbound Hconflicts Hcall Hfree)).
  cbv zeta. cluster_simpl. rewrite hd_skipn_fault, tl_skipn, hd_skipn_fault.
  split.
  - intros e He. rewrite He. repeat split.
  - intros e He Hu. rewrite He, Hu. repeat split.
Qed.

(** X7. Idempotent re-entry: after the pass that has started the checks, a second
    pass on the same instance reads the task, finds it not completed, asks to
    be run again in five seconds and changes no object; the two passes
    together have created one task and posted one record. *)
Theorem Reconcile_reentry (req : NamespacedName) (c : Cluster)
  (wi : KeptnWorkloadInstance) (k : nat)
  (Hfetch : fault 0 c = None)
  (Hwi : lookup wiKey req (workloadInstances c) = Some wi)
  (Hcompleted : IsCompleted wi = false)
  (Hcreated : IsDeploymentCheckNotCreated wi = true)
  (Hbound : k < 5)
  (Hconflicts : forall i, i < k -> attemptConflicts wi (afterFetch c) i)
  (Hcall : fault k (afterFetch c) = None)
  (Hfree : lookup evKey (nameAt wi c k) (tasks c) = None)
  (Hemit : fault (S k) (afterFetch c) = None)
  (Hupdate : fault (S (S k)) (afterFetch c) = None)
  (Hrunning : IsCompleted (startedInstance wi (taskName wi (suffixAt c k))) = false)
  (Hnamed : IsDeploymentCheckNotCreated
              (startedInstance wi (taskName wi (suffixAt c k))) = false)
  (Hpending : EventIsCompleted
                (preDeploymentEvent wi (taskName wi (suffixAt c k))) = false)
  (Hfetch2 : fault (S (S (S k))) (afterFetch c) = None)
  (Hread2 : fault (S (S (S (S k)))) (afterFetch c) = None) :
  let c1 := snd (Reconcile req c) in
  let r2 := Reconcile req c1 in
  fst r2 = (requeueAfter5s, None)
  /\ workloadInstances (snd r2) = workloadInstances c1
  /\ tasks (snd r2)
     = tasks c ++ [preDeploymentEvent wi (taskName wi (suffixAt c k))]
  /\ coreEvents (snd r2)
     = coreEvents c
       ++ [fst (generateK8sEvent (startedInstance wi (taskName wi (suffixAt c k)))
                  "started" c)].
Proof.
  cbv zeta.
  rewrite (Reconcile_started_run req Hfetch Hwi Hcompleted Hcreated Hbound
             Hconflicts Hcall Hfree Hemit Hupdate).
  cbn [snd].
  set (wi' := startedInstance wi (taskName wi (suffixAt c k))) in *.
  set (ev := preDeploymentEvent wi (taskName wi (suffixAt c k))) in *.
  match goal with |- context [Reconcile req ?x] => set (c1 := x) end.
  assert (H0 : fault 0 c1 = None).
  { rewrite <- fault_0. unfold c1; cluster_simpl.
    rewrite hd_skipn_fault. exact Hfetch2. }
  assert (H1 : fault 1 c1 = None).
  { rewrite <- fault_1. unfold c1; cluster_simpl.
    rewrite tl_skipn, hd_skipn_fault. exact Hread2. }
  assert (Hl : lookup wiKey req (workloadInstances c1) = Some wi').
  { unfold c1; cluster_simpl.
    rewrite (lookup_replace wiKey req _ (workloadInstances c) Hwi); reflexivity. }
  assert (Ht : lookup evKey (taskRef wi') (tasks c1) = Some ev).
  { unfold c1; cluster_simpl. apply lookup_app_new; [exact Hfree|reflexivity]. }
  rewrite (Reconcile_polls req c1 H0 Hl Hrunning Hnamed), H1, Ht, Hpending.
  repeat split.
Qed.
End Starting.

Lemma fault_5 c : hd None (tl (tl (tl (tl (tl (faults c)))))) = fault 5 c.
Proof.
  unfold fault; destruct (faults c) as [|? [|? [|? [|? [|? [|? ?]]]]]]; reflexivity.
Qed.

Section Finishing.
Context {api : V1alpha1}.

(** The pass that deletes the completed task and is refused the status. *)
Lemma Reconcile_update_refused_run req c wi ev e :
  fault 0 c = None ->
  lookup wiKey req (workloadInstances c) = Some wi ->
  IsCompleted wi = false -> IsDeploymentCheckNotCreated wi = false ->
  fault 1 c = None ->
  lookup evKey (taskRef wi) (tasks c) = Some ev ->
  EventIsCompleted ev = true ->
  fault 2 c = None -> fault 3 c = Some e ->
  Reconcile req c
  = ((emptyResult, Some e),
     mkCluster (workloadInstances c) (remove evKey (taskRef wi) (tasks c))
       (coreEvents c) (tl (tl (tl (tl (faults c))))) (uuids c) (clock c)).
Proof.
  intros Hf Hl Hc Hn Hr Hev Hdone Hdel Hupd.
  assert (Hkey : evKey ev = taskRef wi) by (eapply lookup_key; eassumption).
  rewrite (Reconcile_polls req c Hf Hl Hc Hn), Hr, Hev, Hdone.
  rewrite reconcileFinish_foldedPhase. cbv zeta. run_step.
  rewrite fault_2, Hdel, Hkey, Hev. run_step. rewrite fault_3, Hupd.
  reflexivity.
Qed.

(** X8. A pass that has deleted the completed task and is then refused the
    status update returns that error with the phase as it was; the next pass
    finds no task under the stored name, returns NotFound and changes no
    object: the outcome of the task is lost and the instance stays in its
    phase. *)
Theorem Reconcile_finish_interrupted (req : NamespacedName) (c : Cluster)
  (wi : KeptnWorkloadInstance) (ev : Event) (e : error)
  (Hfetch : fault 0 c = None)
  (Hwi : lookup wiKey req (workloadInstances c) = Some wi)
  (Hcompleted : IsCompleted wi = false)
  (Hcreated : IsDeploymentCheckNotCreated wi = false)
  (Hread : fault 1 c = None)
  (Hev : lookup evKey (taskRef wi) (tasks c) = Some ev)
  (Hdone : EventIsCompleted ev = true)
  (Hdelete : fault 2 c = None)
  (Hupdate : fault 3 c = Some e)
  (Hunique : lookup evKey (taskRef wi) (remove evKey (taskRef wi) (tasks c)) = None)
  (Hfetch2 : fault 4 c = None)
  (Hread2 : fault 5 c = None) :
  let r1 := Reconcile req c in
  let r2 := Reconcile req (snd r1) in
  fst r1 = (emptyResult, Some e)
  /\ workloadInstances (snd r1) = workloadInstances c
  /\ tasks (snd r1) = remove evKey (taskRef wi) (tasks c)
  /\ fst r2 = (emptyResult, Some (StatusError StatusReasonNotFound))
  /\ workloadInstances (snd r2) = workloadInstances c
  /\ tasks (snd r2) = tasks (snd r1)
  /\ coreEvents (snd r2) = coreEvents c.
Proof.
  cbv zeta.
  rewrite (Reconcile_update_refused_run req c Hfetch Hwi Hcompleted Hcreated Hread
             Hev Hdone Hdelete Hupdate).
  cbn [fst snd].
  match goal with |- context [Reconcile req ?x] => set (c1 := x) end.
  assert (H0 : fault 0 c1 = None)
    by (rewrite <- fault_0; unfold c1; cluster_simpl; rewrite fault_4; exact Hfetch2).
  assert (H1 : fault 1 c1 = None)
    by (rewrite <- fault_1; unfold c1; cluster_simpl; rewrite fault_5; exact Hread2).
  assert (Ht : lookup evKey (taskRef wi) (tasks c1) = None)
    by (unfold c1; cluster_simpl; exact Hunique).
  rewrite (Reconcile_polls req c1 H0 Hwi Hcompleted Hcreated), H1, Ht.
  repeat split.
Qed.

(** ** The ways out of a pass before any check *)

(** X9. A request for an instance that is not in the store, or that the server
    reports as not found, is done at once: a nil error, no requeue, no
    object changed, one call made. *)
Theorem Reconcile_instance_absent (req : NamespacedName) (c : Cluster)
  (Habsent : fault 0 c = Some (StatusError StatusReasonNotFound)
             \/ (fault 0 c = None
                 /\ lookup wiKey req (workloadInstances c) = None)) :
  Reconcile req c = ((emptyResult, None), afterFetch c).
Proof.
  unfold Reconcile. run_step. rewrite fault_0.
  destruct Habsent as [-> | [-> ->]]; reflexivity.
Qed.

(** X10. Any other failure of the read of the instance ends the pass with a new
    error that prints the cause; the new error no longer answers to
    [IsNotFound] nor to [IsAlreadyExists], the result asks for no requeue and
    no object is changed. *)
Theorem Reconcile_fetch_failed (req : NamespacedName) (c : Cluster) (e : error)
  (Hfailed : fault 0 c = Some e)
  (Hother : IsNotFound (Some e) = false) :
  Reconcile req c
  = ((emptyResult, Some (Errorf "could not fetch KeptnWorkloadInstance: %+v" e)),
     afterFetch c)
  /\ IsNotFound (snd (fst (Reconcile req c))) = false
  /\ IsAlreadyExists (snd (fst (Reconcile req c))) = false.
Proof.
  assert (H : Reconcile req c
              = ((emptyResult,
                  Some (Errorf "could not fetch KeptnWorkloadInstance: %+v" e)),
                 afterFetch c)).
  { unfold Reconcile. run_step. rewrite fault_0, Hfailed. cbv beta iota.
    rewrite Hother. reflexivity. }
  rewrite H. repeat split.
Qed.

(** X11. A completed instance is left alone: the pass is done after the one read,
    with a nil error, no requeue and no object changed. *)
Theorem Reconcile_completed (req : NamespacedName) (c : Cluster)
  (wi : KeptnWorkloadInstance)
  (Hfetch : fault 0 c = None)
  (Hwi : lookup wiKey req (workloadInstances c) = Some wi)
  (Hcompleted : IsCompleted wi = true) :
  Reconcile req c = ((emptyResult, None), afterFetch c).
Proof.
  unfold Reconcile. run_step. rewrite fault_0, Hfetch, Hwi. cbv beta iota.
  cbn [IsNotFound]. rewrite Hcompleted. reflexivity.
Qed.
End Finishing.

(** ** The shape of a pass *)

Lemma startPreDeploymentChecks_calls wi c :
  callsBetween 1 5 c (snd (startPreDeploymentChecks wi c)).
Proof.
  unfold startPreDeploymentChecks, generateSuffix.
  cbv beta iota zeta delta [bind ret uuidNew].
  match goal with
  | |- context [createLoop 5 wi ?ev ?c0] =>
      destruct (createLoop_calls 5 wi ev c0) as (k & u & Hk & Hpos & Hu & Hf & Hi)
  end.
  exists k. rewrite Hf. cluster_simpl. split; [lia|reflexivity].
Qed.

Lemma replace_untouched {A} (key : A -> NamespacedName) k f l :
  Forall2 (fun a b => key a <> k -> b = a) l (replace key k f l).
Proof.
  induction l as [|x r IH]; simpl; [constructor|].
  destruct (NamespacedName_eqb (key x) k) eqn:E.
  - constructor.
    + intros H. apply NamespacedName_eqb_eq in E. contradiction.
    + apply Forall2_refl. auto.
  - constructor; auto.
Qed.

Section Shape.
Context {api : V1alpha1}.

Lemma error_shape e : resultShape (emptyResult, Some e).
Proof. right; eauto. Qed.

Lemma done_shape : resultShape (emptyResult, None).
Proof. left; auto. Qed.

Lemma requeue_shape : resultShape (requeueAfter5s, None).
Proof. left; auto. Qed.

#[local] Hint Resolve error_shape done_shape requeue_shape : core.

Lemma callsBetween_tl lo hi c c' :
  lo <= 1 <= hi -> faults c' = tl (faults c) -> callsBetween lo hi c c'.
Proof. intros H H'. exists 1. rewrite H'. split; [lia|reflexivity]. Qed.

Lemma callsBetween_tl2 lo hi c c' :
  lo <= 2 <= hi -> faults c' = tl (tl (faults c)) -> callsBetween lo hi c c'.
Proof.
  intros H H'. exists 2. rewrite H'. split; [lia|].
  destruct (faults c) as [|? [|? ?]]; reflexivity.
Qed.

Lemma callsBetween_trans lo1 hi1 lo2 hi2 c c1 c2 :
  callsBetween lo1 hi1 c c1 -> callsBetween lo2 hi2 c1 c2 ->
  callsBetween (lo1 + lo2) (hi1 + hi2) c c2.
Proof.
  intros (k & Hk & H1) (j & Hj & H2). exists (j + k).
  rewrite H2, H1, skipn_skipn. split; [lia|reflexivity].
Qed.

Lemma callsBetween_weaken lo hi lo' hi' c c' :
  callsBetween lo hi c c' -> lo' <= lo -> hi <= hi' -> callsBetween lo' hi' c c'.
Proof. intros (k & Hk & H) Hlo Hhi. exists k. split; [lia|exact H]. Qed.

(** Posting the record and persisting the status, in the order of either
    branch: one or two calls, and the one instance of the request. *)
Lemma persist_shape req b eventType c1 :
  wiKey b = req ->
  (let r := (k8sEvent <- generateK8sEvent b eventType ;;
             err <- CreateCoreEvent k8sEvent ;;
             match err with
             | Some e => ret (emptyResult, Some e)
             | None =>
                 err <- StatusUpdate b ;;
                 match err with
                 | Some e => ret (emptyResult, Some e)
                 | None => ret (requeueAfter5s, None)
                 end
             end) c1 in
   resultShape (fst r)
   /\ instancesShape req (workloadInstances c1) (workloadInstances (snd r))
   /\ callsBetween 1 2 c1 (snd r))
  /\ (let r := (err <- StatusUpdate b ;;
                match err with
                | Some e => ret (emptyResult, Some e)
                | None =>
                    k8sEvent <- generateK8sEvent b eventType ;;
                    err <- CreateCoreEvent k8sEvent ;;
                    match err with
                    | Some e => ret (emptyResult, Some e)
                    | None => ret (emptyResult, None)
                    end
                end) c1 in
      resultShape (fst r)
      /\ instancesShape req (workloadInstances c1) (workloadInstances (snd r))
      /\ callsBetween 1 2 c1 (snd r)).
Proof.
  intros Hkey. unfold instancesShape. cbv zeta. split.
  - run_step. destruct (hd None (faults c1)) as [e|]; run_step.
    + repeat split; auto. apply callsBetween_tl; [lia|reflexivity].
    + rewrite Hkey.
      destruct (hd None (tl (faults c1))) as [e|];
        [|destruct (lookup wiKey req (workloadInstances c1))]; run_step;
        (repeat split; [auto|eauto|apply callsBetween_tl2; [lia|reflexivity]]).
  - run_step. rewrite Hkey.
    destruct (hd None (faults c1)) as [e|];
      [|destruct (lookup wiKey req (workloadInstances c1))]; run_step;
      try (repeat split; [auto|eauto|apply callsBetween_tl; [lia|reflexivity]]).
    destruct (hd None (tl (faults c1))) as [e|]; run_step;
      (repeat split; [auto|eauto|apply callsBetween_tl2; [lia|reflexivity]]).
Qed.

Lemma reconcileStart_shape req wi c0 :
  wiKey wi = req ->
  passShape req 7 c0 c0 (reconcileStart wi c0).
Proof.
  intros Hkey. unfold reconcileStart, bind at 1.
  pose proof (startPreDeploymentChecks_calls wi c0) as Hcalls.
  destruct (startPreDeploymentChecks_outcome wi c0) as (_ & Hw & _).
  destruct (startPreDeploymentChecks wi c0) as [[n [e|]] c1]; cbn [fst snd] in Hcalls, Hw.
  - unfold passShape. cbv beta iota delta [ret]. cbn [fst snd]. rewrite Hw.
    repeat split; [auto|left; reflexivity|].
    eapply callsBetween_weaken; [exact Hcalls|lia|lia].
  - cbv beta iota. unfold passShape.
    destruct (@persist_shape req
                (setPreDeploymentPhase (setPreDeploymentTaskName wi n)
                   WorkloadInstanceRunning) "started" c1 Hkey)
      as ((Hr & Hi & Hc) & _).
    rewrite Hw in Hi. repeat split; [exact Hr|exact Hi|].
    eapply callsBetween_weaken;
      [exact (callsBetween_trans Hcalls Hc)|lia|lia].
Qed.

Lemma reconcileFinish_shape req wi ev c0 :
  wiKey wi = req ->
  passShape req 3 c0 c0 (reconcileFinish wi ev c0).
Proof.
  intros Hkey. rewrite reconcileFinish_foldedPhase. cbv zeta.
  unfold bind at 1. rewrite run_DeleteEvent.
  assert (Hidle : forall e,
            passShape req 3 c0 c0 ((emptyResult, Some e), setFaults c0 (tl (faults c0)))).
  { intros e. unfold passShape; cluster_simpl.
    repeat split; [auto|left; reflexivity|apply callsBetween_tl; [lia|reflexivity]]. }
  destruct (hd None (faults c0)) as [e|]; [apply Hidle|].
  destruct (lookup evKey (evKey ev) (tasks c0)); [|apply Hidle].
  cbv beta iota.
  match goal with
  | |- context [setTasks ?c ?l] =>
      destruct (@persist_shape req (setPreDeploymentPhase wi (foldedPhase ev))
                  "finished" (setTasks c l) Hkey) as (_ & (Hr & Hi & Hc))
  end.
  cbn [workloadInstances setTasks setFaults] in Hi.
  unfold passShape. repeat split; [exact Hr|exact Hi|].
  eapply callsBetween_weaken;
    [refine (callsBetween_trans (c1 := setTasks (setFaults c0 (tl (faults c0))) _)
               (lo1 := 1) (hi1 := 1) _ Hc)|lia|lia].
  apply callsBetween_tl; [lia|reflexivity].
Qed.

Lemma Reconcile_shape req c : passShape req 8 c c (Reconcile req c).
Proof.
  assert (Hidle : forall r, resultShape r ->
            passShape req 8 c c (r, setFaults c (tl (faults c)))).
  { intros r Hr. unfold passShape; cluster_simpl.
    repeat split; [exact Hr|left; reflexivity|apply callsBetween_tl; [lia|reflexivity]]. }
  assert (Hlift : forall hi r, hi <= 7 ->
            passShape req hi (setFaults c (tl (faults c)))
              (setFaults c (tl (faults c))) r ->
            passShape req 8 c c r).
  { intros hi r Hhi (Hr & Hi & Hc). repeat split; [exact Hr|exact Hi|].
    eapply callsBetween_weaken;
      [refine (callsBetween_trans (c1 := setFaults c (tl (faults c)))
                 (lo1 := 1) (hi1 := 1) _ Hc)|lia|lia].
    apply callsBetween_tl; [lia|reflexivity]. }
  unfold Reconcile. unfold bind at 1. rewrite run_GetWorkloadInstance.
  destruct (hd None (faults c)) as [e|].
  - cbv beta iota. destruct (IsNotFound (Some e)); apply Hidle; auto.
  - destruct (lookup wiKey req (workloadInstances c)) as [wi|] eqn:Hl;
      cbv beta iota; cbn [IsNotFound]; [|apply Hidle; auto].
    assert (Hkey : wiKey wi = req) by (eapply lookup_key; eassumption).
    destruct (IsCompleted wi); [apply Hidle; auto|].
    destruct (IsDeploymentCheckNotCreated wi).
    + apply (Hlift 7); [lia|]. apply reconcileStart_shape, Hkey.
    + unfold getPreDeploymentChecksEvent. run_step.
      set (c0 := setFaults c (tl (faults c))).
      assert (Hidle2 : forall r, resultShape r ->
                passShape req 8 c c (r, setFaults c (tl (tl (faults c))))).
      { intros r Hr. unfold passShape; cluster_simpl.
        repeat split; [exact Hr|left; reflexivity|
                       apply callsBetween_tl2; [lia|reflexivity]]. }
      assert (Hfin : forall ev,
                passShape req 8 c c
                  (reconcileFinish wi ev (setFaults c (tl (tl (faults c)))))).
      { intros ev.
        destruct (@reconcileFinish_shape req wi ev
                    (setFaults c (tl (tl (faults c)))) Hkey) as (Hr & Hi & Hc).
        repeat split; [exact Hr|exact Hi|].
        eapply callsBetween_weaken;
          [refine (callsBetween_trans
                     (c1 := setFaults c (tl (tl (faults c))))
                     (lo1 := 2) (hi1 := 2) _ Hc)|lia|lia].
        apply callsBetween_tl2; [lia|reflexivity]. }
      destruct (hd None (tl (faults c))) as [e|].
      * cbv beta iota. destruct (IsNotFound (Some e)); cbv beta iota.
        -- apply Hidle2; auto.
        -- destruct (EventIsCompleted zeroEvent); [apply Hfin|apply Hidle2; auto].
      * match goal with
        | |- context [lookup evKey ?k ?l] =>
            destruct (lookup evKey k l) as [ev|]
        end; cbv beta iota; cbn [IsNotFound]; cbv beta iota;
          [|apply Hidle2; auto].
        destruct (EventIsCompleted ev); [apply Hfin|apply Hidle2; auto].
Qed.
End Shape.

(** X12. [Reconcile] returns a nil error with the empty result or with a requeue
    in five seconds, or an error with the empty result: never an error
    together with a requeue, and no other delay. *)
Theorem Reconcile_result `{V1alpha1} (req : NamespacedName) (c : Cluster) :
  let r := fst (Reconcile req c) in
  (snd r = None
   /\ (fst r = mkResult false 0 \/ fst r = mkResult true 5000000000))
  \/ (exists e, r = (mkResult false 0, Some e)).
Proof. exact (proj1 (Reconcile_shape req c)). Qed.

(** X13. A pass for a request leaves every stored instance of another name
    exactly as it was. *)
Theorem Reconcile_touches_one `{V1alpha1} (req : NamespacedName) (c : Cluster) :
  Forall2 (fun a b => wiKey a <> req -> b = a)
    (workloadInstances c) (workloadInstances (snd (Reconcile req c))).
Proof.
  destruct (Reconcile_shape req c) as (_ & [Hi | [f Hi]] & _); rewrite Hi.
  - apply Forall2_refl. auto.
  - apply replace_untouched.
Qed.

(** X14. A pass makes at least one and at most eight calls to the store. *)
Theorem Reconcile_calls_bounded `{V1alpha1} (req : NamespacedName) (c : Cluster) :
  exists k, 1 <= k <= 8 /\ faults (snd (Reconcile req c)) = skipn k (faults c).
Proof. exact (proj2 (proj2 (Reconcile_shape req c))). Qed.

(** ** The read of the task and the suffix *)

(** X15. [getPreDeploymentChecksEvent] returns a task with a nil error or no task
    with an error that answers to [IsNotFound], and nothing else; a task it
    returns after a read the server has answered is the stored task of the
    name in the status, in the namespace of the instance; it makes one call
    and changes no object. *)
Theorem getPreDeploymentChecksEvent_result (wi : KeptnWorkloadInstance) (c : Cluster) :
  let r := getPreDeploymentChecksEvent wi c in
  ((exists ev, fst r = (Some ev, None)
               /\ (fault 0 c = None ->
                   lookup evKey (taskRef wi) (tasks c) = Some ev))
   \/ (exists e, fst r = (None, Some e) /\ IsNotFound (Some e) = true))
  /\ snd r = afterFetch c.
Proof.
  cbv zeta. unfold getPreDeploymentChecksEvent. run_step. rewrite fault_0.
  fold (taskRef wi).
  destruct (fault 0 c) as [e|].
  - cbv beta iota. destruct (IsNotFound (Some e)) eqn:E; cbn [fst snd].
    + split; [right; eauto|reflexivity].
    + split; [left; eexists; split; [reflexivity|discriminate]|reflexivity].
  - destruct (lookup evKey (taskRef wi) (tasks c)) as [ev|]; cbv beta iota;
      cbn [IsNotFound fst snd]; split; try reflexivity.
    + left; eauto.
    + right; eauto.
Qed.

Lemma substring_0_length (n : nat) (s : string) :
  String.length (substring 0 n s) = Nat.min n (String.length s).
Proof.
  revert s; induction n as [|n IH]; intros [|a s]; cbn; auto.
Qed.

Lemma substring_0_prefix (n : nat) (s : string) : prefix (substring 0 n s) s = true.
Proof.
  revert s; induction n as [|n IH]; intros [|a s]; cbn; auto.
  destruct (ascii_dec a a); [apply IH|contradiction].
Qed.

(** X16. The suffix is the start of the identifier [uuid.New] yields, cut at ten
    characters; the call draws one identifier and changes nothing else. *)
Theorem generateSuffix_prefix (c : Cluster) :
  let r := generateSuffix c in
  prefix (fst r) (hd "" (uuids c)) = true
  /\ String.length (fst r) = Nat.min 10 (String.length (hd "" (uuids c)))
  /\ snd r = setUuids c (tl (uuids c)).
Proof.
  cbv zeta. unfold generateSuffix. cbv beta iota delta [bind ret uuidNew].
  cbn [fst snd]. split; [apply substring_0_prefix|].
  split; [apply substring_0_length|reflexivity].
Qed.

(** ** Witnesses *)

Lemma Reconcile_checks_started_witness :
  fst (@Reconcile specApi checkoutReq clusterFourTaken) = (requeueAfter5s, None)
  /\ lookup wiKey checkoutReq
       (workloadInstances (snd (@Reconcile specApi checkoutReq clusterFourTaken)))
     = Some (checkout "Running" "NotStarted" "checkout-eeeeeeee-e").
Proof.
  destruct (@Reconcile_checks_started specApi checkoutReq clusterFourTaken
              (checkout "NotStarted" "NotStarted" "") 4
              eq_refl eq_refl eq_refl eq_refl) as (H1 & _ & H3 & _);
    try reflexivity.
  - lia.
  - intros i Hi. destruct i as [|[|[|[|i]]]];
      try (right; split; [reflexivity|cbn; discriminate]). lia.
  - exact (conj H1 H3).
Defined.

Lemma Reconcile_start_interrupted_witness :
  let c := clusterFresh [None; None; Some (StatusError StatusReasonForbidden)] in
  fst (@Reconcile specApi checkoutReq c)
  = (emptyResult, Some (StatusError StatusReasonForbidden))
  /\ tasks (snd (@Reconcile specApi checkoutReq c))
     = [checkoutTask "checkout-aaaaaaaa-a" ""]
  /\ workloadInstances (snd (@Reconcile specApi checkoutReq c)) = workloadInstances c.
Proof.
  cbv zeta.
  destruct (@Reconcile_start_interrupted specApi checkoutReq
              (clusterFresh [None; None; Some (StatusError StatusReasonForbidden)])
              (checkout "NotStarted" "NotStarted" "") 0
              eq_refl eq_refl eq_refl eq_refl) as (H & _);
    try reflexivity.
  - lia.
  - intros i Hi. lia.
  - destruct (H (StatusError StatusReasonForbidden) eq_refl) as (H1 & H2 & H3 & _).
    exact (conj H1 (conj H2 H3)).
Defined.

Lemma Reconcile_reentry_witness :
  let c1 := snd (@Reconcile specApi checkoutReq (clusterFresh [])) in
  fst (@Reconcile specApi checkoutReq c1) = (requeueAfter5s, None)
  /\ tasks (snd (@Reconcile specApi checkoutReq c1))
     = [checkoutTask "checkout-aaaaaaaa-a" ""].
Proof.
  cbv zeta.
  destruct (@Reconcile_reentry specApi checkoutReq (clusterFresh [])
              (checkout "NotStarted" "NotStarted" "") 0
              eq_refl eq_refl eq_refl eq_refl) as (H1 & _ & H3 & _);
    try reflexivity.
  - lia.
  - intros i Hi. lia.
  - exact (conj H1 H3).
Defined.

Lemma Reconcile_finish_interrupted_witness :
  let c := clusterTaskSucceeded
             [None; None; None; Some (StatusError StatusReasonConflict)] in
  fst (@Reconcile specApi checkoutReq c)
  = (emptyResult, Some (StatusError StatusReasonConflict))
  /\ fst (@Reconcile specApi checkoutReq (snd (@Reconcile specApi checkoutReq c)))
     = (emptyResult, Some (StatusError StatusReasonNotFound)).
Proof.
  cbv zeta.
  destruct (@Reconcile_finish_interrupted specApi checkoutReq
              (clusterTaskSucceeded
                 [None; None; None; Some (StatusError StatusReasonConflict)])
              (checkout "Running" "NotStarted" "checkout-0123456789")
              (checkoutTask "checkout-0123456789" "Succeeded")
              (StatusError StatusReasonConflict)
              eq_refl eq_refl eq_refl eq_refl eq_refl eq_refl eq_refl eq_refl
              eq_refl eq_refl eq_refl eq_refl) as (H1 & _ & _ & H4 & _).
  exact (conj H1 H4).
Defined.

Lemma Reconcile_instance_absent_witness :
  @Reconcile specApi (mkNamespacedName "ns" "cart") clusterTaskGone
  = ((emptyResult, None), afterFetch clusterTaskGone).
Proof.
  apply (@Reconcile_instance_absent specApi). right. split; reflexivity.
Defined.

Lemma Reconcile_fetch_failed_witness :
  snd (fst (@Reconcile specApi checkoutReq
              (clusterTaskSucceeded [Some (StatusError StatusReasonTimeout)])))
  = Some (Errorf "could not fetch KeptnWorkloadInstance: %+v"
            (StatusError StatusReasonTimeout)).
Proof.
  rewrite (proj1 (@Reconcile_fetch_failed specApi checkoutReq
                    (clusterTaskSucceeded [Some (StatusError StatusReasonTimeout)])
                    (StatusError StatusReasonTimeout) eq_refl eq_refl)).
  reflexivity.
Defined.

Lemma Reconcile_completed_witness :
  @Reconcile specApi checkoutReq clusterCompleted
  = ((emptyResult, None), afterFetch clusterCompleted).
Proof.
  apply (@Reconcile_completed specApi checkoutReq clusterCompleted
           (checkout "Succeeded" "Failed" "checkout-0123456789"));
    reflexivity.
Defined.

(** ** The records of a pass *)

Lemma generateK8sEvent_clock wi eventType c c' :
  clock c' = clock c ->
  fst (generateK8sEvent wi eventType c') = fst (generateK8sEvent wi eventType c).
Proof. intros H. rewrite !run_generateK8sEvent, H. reflexivity. Qed.

Section Records.
Context {api : V1alpha1}.

Lemma recordPosted_idle req c c' :
  coreEvents c' = coreEvents c -> recordPosted req c c'.
Proof. intros H; left; exact H. Qed.

Lemma reconcileStart_record req wi c c0 :
  lookup wiKey req (workloadInstances c) = Some wi ->
  workloadInstances c0 = workloadInstances c ->
  coreEvents c0 = coreEvents c -> clock c0 = clock c ->
  recordPosted req c (snd (reconcileStart wi c0)).
Proof.
  intros Hl Hw He Hk.
  assert (Hreq : wiKey wi = req) by (eapply lookup_key; eassumption).
  destruct (startPreDeploymentChecks_outcome wi c0) as (Ho & Hw1 & He1 & Hk1).
  destruct (startPreDeploymentChecks wi c0) as [[n [e|]] c1] eqn:Hs;
    cbn [fst snd] in Ho, Hw1, He1, Hk1.
  - unfold reconcileStart, bind at 1. rewrite Hs. apply recordPosted_idle.
    cbn. congruence.
  - rewrite (@reconcileStart_run _ _ _ _ _ Hs). cbv zeta.
    rewrite Hw in Hw1. rewrite He in He1. rewrite Hk in Hk1.
    rewrite (fun w t => @generateK8sEvent_clock w t c c1 Hk1).
    inversion Ho as [ | s Hn Hts | s Hn Hts]; subst n.
    all: destruct (hd None (faults c1)) as [e|];
      [apply recordPosted_idle; cluster_simpl; exact He1|].
    all: right; exists wi, (startedInstance wi (taskName wi s)), "started".
    all: split; [exact Hl|]. all: split; [left; split; [reflexivity|eauto]|].
    all: rewrite Hw1, He1, Hreq, Hl.
    all: destruct (hd None (tl (faults c1))) as [e|]; cluster_simpl;
      (split; [|reflexivity]);
      [left; reflexivity
      |right; rewrite (lookup_replace wiKey req _ (workloadInstances c) Hl);
       reflexivity].
Qed.

Lemma reconcileFinish_record req wi ev c c0 :
  lookup wiKey req (workloadInstances c) = Some wi ->
  workloadInstances c0 = workloadInstances c ->
  coreEvents c0 = coreEvents c -> clock c0 = clock c ->
  recordPosted req c (snd (reconcileFinish wi ev c0)).
Proof.
  intros Hl Hw He Hk.
  assert (Hreq : wiKey wi = req) by (eapply lookup_key; eassumption).
  assert (Hp : terminalPhase (foldedPhase ev))
    by (unfold foldedPhase, terminalPhase; destruct (String.eqb _ _); auto).
  rewrite reconcileFinish_foldedPhase. cbv zeta. run_step.
  destruct (hd None (faults c0)) as [e|];
    [apply recordPosted_idle; cluster_simpl; exact He|].
  destruct (lookup evKey (evKey ev) (tasks c0)) as [stored|];
    [|apply recordPosted_idle; cluster_simpl; exact He].
  run_step. rewrite Hw.
  change (wiKey (setPreDeploymentPhase wi (foldedPhase ev))) with (wiKey wi).
  rewrite Hreq, Hl.
  destruct (hd None (tl (faults c0))) as [e|]; run_step;
    [apply recordPosted_idle; cluster_simpl; exact He|].
  destruct (hd None (tl (tl (faults c0)))) as [e|]; run_step;
    [apply recordPosted_idle; cluster_simpl; exact He|].
  assert (Hstored : lookup wiKey req
            (replace wiKey req
               (fun o => withStatus o
                           (wiStatus (setPreDeploymentPhase wi (foldedPhase ev))))
               (workloadInstances c))
            = Some (setPreDeploymentPhase wi (foldedPhase ev)))
    by (rewrite (lookup_replace wiKey req _ (workloadInstances c) Hl); reflexivity).
  right. exists wi, (setPreDeploymentPhase wi (foldedPhase ev)), "finished".
  split; [exact Hl|].
  split; [right; split; [reflexivity|split; [eauto|exact Hstored]]|].
  split; [right; exact Hstored|].
  rewrite He, Hk. reflexivity.
Qed.

Lemma Reconcile_record req c : recordPosted req c (snd (Reconcile req c)).
Proof.
  unfold Reconcile. unfold bind at 1. rewrite run_GetWorkloadInstance.
  destruct (hd None (faults c)) as [e|].
  - cbv beta iota. destruct (IsNotFound (Some e)); now apply recordPosted_idle.
  - destruct (lookup wiKey req (workloadInstances c)) as [wi|] eqn:Hl;
      cbv beta iota; cbn [IsNotFound]; [|now apply recordPosted_idle].
    destruct (IsCompleted wi); [now apply recordPosted_idle|].
    destruct (IsDeploymentCheckNotCreated wi).
    + apply reconcileStart_record; auto.
    + unfold bind at 1.
      destruct (getPreDeploymentChecksEvent_cases wi (setFaults c (tl (faults c))))
        as (Hr & Hw & Ht & He & Hk).
      destruct (getPreDeploymentChecksEvent wi (setFaults c (tl (faults c))))
        as [[ev err] c1].
      cbn [fst snd] in *. cluster_simpl.
      destruct Hr as [[ev' Hr]|[e Hr]]; injection Hr as -> ->.
      * destruct (EventIsCompleted ev').
        -- apply reconcileFinish_record; auto.
        -- now apply recordPosted_idle.
      * now apply recordPosted_idle.
Qed.
End Records.

(** C9, as amended. The record [generateK8sEvent] builds names the instance
    by kind, namespace and name, has the pre-deployment phase of the instance
    as its reason, the message "pre-deployment checks are " followed by the
    event type, the type "Normal" and the annotations of the instance; its
    three timestamps are three readings of the clock, taken one after the
    other while the record is built, event time first, then first-seen, then
    last-seen: each is a time of emission, and they are not one shared value.
    A pass posts at most one record: under "started" for the stored instance
    of the request with its new task name and the phase Running, or under
    "finished" for that instance with its phase Succeeded or Failed, which is
    then the instance the store holds; whenever the pass has changed the
    stored instances, the record is the one of the instance it has stored. *)
Theorem audit_event_record `{V1alpha1} :
  (forall wi eventType c,
     let e := fst (generateK8sEvent wi eventType c) in
     ceInvolvedObject e
     = mkObjectReference (wiKind wi) (wiNamespace wi) (wiName wi)
     /\ ceReason e = PreDeploymentPhase (wiStatus wi)
     /\ ceMessage e = ("pre-deployment checks are " ++ eventType)%string
     /\ ceType e = "Normal"
     /\ ceAnnotations e = wiAnnotations wi
     /\ ceEventTime e = nth 0 (clock c) 0%Z
     /\ ceFirstTimestamp e = nth 1 (clock c) 0%Z
     /\ ceLastTimestamp e = nth 2 (clock c) 0%Z
     /\ clock (snd (generateK8sEvent wi eventType c)) = skipn 3 (clock c))
  /\ (forall req c,
        let c' := snd (Reconcile req c) in
        coreEvents c' = coreEvents c
        \/ exists a b eventType,
             lookup wiKey req (workloadInstances c) = Some a
             /\ (eventType = "started"
                 /\ (exists s, b = startedInstance a (taskName a s))
                 \/ eventType = "finished"
                 /\ (exists p, terminalPhase p /\ b = setPreDeploymentPhase a p)
                 /\ lookup wiKey req (workloadInstances c') = Some b)
             /\ (workloadInstances c' = workloadInstances c
                 \/ lookup wiKey req (workloadInstances c') = Some b)
             /\ coreEvents c'
                = coreEvents c ++ [fst (generateK8sEvent b eventType c)]).
Proof.
  split.
  - intros wi eventType c e. subst e. cbn.
    destruct (clock c) as [|t0 [|t1 [|t2 ts]]]; repeat split.
  - intros req c. exact (Reconcile_record req c).
Qed.

(** C9, as stated, fails: the clock moves while the record is built, and the
    three timestamps of the record are three different times. *)
Lemma audit_timestamps_differ :
  let e := fst (generateK8sEvent
                  (checkout "Running" "NotStarted" "checkout-0123456789")
                  "started" clusterTaskGone) in
  ~ (exists t : Time,
       ceEventTime e = t /\ ceFirstTimestamp e = t /\ ceLastTimestamp e = t).
Proof.
  cbv zeta. intros (t & H1 & H2 & _). cbn in H1, H2. subst t. discriminate H2.
Qed.
